(** * ShupraProtects: the e-mail analysis pipeline

    A shallow embedding of [extension/background.js] (the message listener,
    the analysis router, the local heuristic scanner, the remote scanner
    with its reconciliation rules) and of the popup script (retention,
    settings, the latest result, display and polling), together with the
    properties the design document states about them and further
    properties read off the code.

    Conventions of the model:
    - JavaScript values that travel through JSON (the reply of the text
      generation service, the contents of [chrome.storage.local]) are
      [JSValue]s; [undefined] is the [None] of an [option JSValue].
    - Numbers are integers ([Z]); the design document types confidence and
      threshold as integers.  Non-integral JSON numbers are outside the model.
    - Strings are [string]s, compared character by character as
      [Array.prototype.sort] and [String.prototype.includes] do.
    - [EmailData] is a typed e-mail: each field is absent or of the type the
      design document gives it.  The local scanner is modelled a second
      time, on an arbitrary JSON payload ([runLocalBasicScan_value]), for
      the statements about input of any shape; on the payload of a typed
      e-mail the two agree ([runLocalBasicScan_value_payload]).
    - [ToString] is the conversion to a string of a value that has one;
      [ToString_opt] also tells when the conversion throws.  The display of
      the popup, which converts stored values of any shape, is modelled
      with [ToString_opt]; the settings and the threshold, which the popup
      writes as strings and numbers, are converted with [ToString].
    - Host functions whose definition lives in the JavaScript engine or the
      browser ([toLowerCase], the [URL] parser, [JSON.parse], ...) are the
      fields of the class [Platform]; every theorem holds for every platform.
    - [async] code that reads or writes the store is a computation in the
      monad [M] (state of the store, plus exceptions).
    - What the popup does to its page is the list of assignments it makes. *)

From Stdlib Require Import ZArith String Ascii List Lia.
From stdpp Require Import gmap strings list sorting pretty.

Local Open Scope Z_scope.
Set Warnings "-register-all,-clear-no-such-hyp".

(** ** JavaScript values *)

Inductive JSValue : Type :=
| JNull
| JBool (b : bool)
| JNum (n : Z)
| JStr (s : string)
| JArr (items : list JSValue)
| JObj (fields : list (string * JSValue)).

(** Exceptions: [new Error(message)], and the engine's own [TypeError]
    (property access on [undefined] or [null], call of a non-function) and
    [SyntaxError] ([JSON.parse], [response.json()]). *)
Inductive exn : Type :=
| Error (message : string)
| TypeError
| SyntaxError.

Inductive Outcome (A : Type) : Type :=
| Returned (a : A)
| Thrown (e : exn).
Arguments Returned {A} a.
Arguments Thrown {A} e.

(** Sequencing of code that may throw, in stdpp's monad notation
    [x ← o; k]. *)
#[global] Instance Outcome_ret : MRet Outcome := λ A a, Returned a.
#[global] Instance Outcome_bind : MBind Outcome := λ A B k o,
  match o with
  | Returned a => k a
  | Thrown e => Thrown e
  end.

(** [!v] is [negb (truthy v)]: the falsy values among JSON values are
    [null], [false], [0] and the empty string. *)
Definition truthy (v : JSValue) : bool :=
  match v with
  | JNull => false
  | JBool b => b
  | JNum n => negb (n =? 0)
  | JStr s => negb (String.eqb s "")
  | JArr _ | JObj _ => true
  end.

Definition truthy_opt (o : option JSValue) : bool :=
  match o with
  | Some v => truthy v
  | None => false
  end.

(** [a || b] on possibly undefined values, with a defined right operand. *)
Definition or_else (a : option JSValue) (b : JSValue) : JSValue :=
  match a with
  | Some v => if truthy v then v else b
  | None => b
  end.

Fixpoint join (sep : string) (l : list string) : string :=
  match l with
  | [] => ""
  | [s] => s
  | s :: rest => s +:+ sep +:+ join sep rest
  end.

(** The string a template literal puts in place of a value. *)
Fixpoint ToString (v : JSValue) : string :=
  match v with
  | JNull => "null"
  | JBool true => "true"
  | JBool false => "false"
  | JNum n => pretty n
  | JStr s => s
  | JArr items =>
      join "," (map (fun x => match x with JNull => "" | _ => ToString x end) items)
  | JObj _ => "[object Object]"
  end.

Fixpoint assoc (name : string) (fields : list (string * JSValue)) : option JSValue :=
  match fields with
  | [] => None
  | (k, v) :: rest => if String.eqb k name then Some v else assoc name rest
  end.

(** The conversion to a string as the engine carries it out, for values
    whose conversion may throw ([None]).  An object is asked for its
    [toString] and then its [valueOf]; an own property of a parsed object is
    never a function and the inherited [valueOf] returns the object itself,
    so an object with an own [toString] property cannot be converted.  An
    array joins the conversions of its elements. *)
Fixpoint ToString_opt (v : JSValue) : option string :=
  match v with
  | JNull => Some "null"
  | JBool true => Some "true"
  | JBool false => Some "false"
  | JNum n => Some (pretty n)
  | JStr s => Some s
  | JArr items =>
      option_map (join ",")
        ((fix each (l : list JSValue) : option (list string) :=
            match l with
            | [] => Some []
            | x :: rest =>
                match (match x with JNull => Some "" | _ => ToString_opt x end) with
                | Some s => option_map (cons s) (each rest)
                | None => None
                end
            end) items)
  | JObj fields =>
      match assoc "toString" fields with
      | Some _ => None
      | None => Some "[object Object]"
      end
  end.

(** Induction on a JSON value, with the hypothesis for the elements of an
    array. *)
Section JSValue_items_ind.
Variable P : JSValue → Prop.
Hypothesis Hnull : P JNull.
Hypothesis Hbool : ∀ b, P (JBool b).
Hypothesis Hnum : ∀ n, P (JNum n).
Hypothesis Hstr : ∀ s, P (JStr s).
Hypothesis Harr : ∀ items, Forall P items → P (JArr items).
Hypothesis Hobj : ∀ fields, P (JObj fields).

Fixpoint JSValue_items_ind (v : JSValue) : P v :=
  match v with
  | JNull => Hnull
  | JBool b => Hbool b
  | JNum n => Hnum n
  | JStr s => Hstr s
  | JArr items =>
      Harr items
        ((fix each (l : list JSValue) : Forall P l :=
            match l with
            | [] => @List.Forall_nil _ P
            | x :: rest => @List.Forall_cons _ P x rest (JSValue_items_ind x) (each rest)
            end) items)
  | JObj fields => Hobj fields
  end.

End JSValue_items_ind.

(** [v.name] for a name that no prototype defines ([choices], [message],
    [content], [error]): a [TypeError] on [null], the own property of an
    object, [undefined] on everything else. *)
Definition get_prop (v : JSValue) (name : string) : Outcome (option JSValue) :=
  match v with
  | JNull => Thrown TypeError
  | JObj fields => Returned (assoc name fields)
  | _ => Returned None
  end.

(** [v[0]] on a possibly undefined value. *)
Definition get_index0 (o : option JSValue) : Outcome (option JSValue) :=
  match o with
  | None | Some JNull => Thrown TypeError
  | Some (JArr items) => Returned (head items)
  | Some (JStr (String c _)) => Returned (Some (JStr (String c "")))
  | Some (JObj fields) => Returned (assoc "0" fields)
  | Some _ => Returned None
  end.

(** [o?.name]: [undefined] when [o] is [undefined] or [null]. *)
Definition get_prop_opt (o : option JSValue) (name : string) : option JSValue :=
  match o with
  | Some (JObj fields) => assoc name fields
  | _ => None
  end.

(** ** The host platform *)

Class Platform : Type := {
  (** [String.prototype.toLowerCase] *)
  toLowerCase : string → string;
  (** [new URL(link).hostname]; [None] when the constructor throws *)
  URL_hostname : string → option string;
  (** the conversion of a string to a number; [None] is [NaN] *)
  StringToNumber : string → option Z;
  (** lines 214-220 of background.js: [trim], removal of the markdown
      fences, and the text matched by [/\{[\s\S]*\}/], if any *)
  find_object_span : string → option string;
  (** [JSON.parse]; [None] when it throws *)
  JSON_parse : string → option JSValue;
}.

(** [ToNumber]; [None] is [NaN]. *)
Definition ToNumber `{Platform} (v : JSValue) : option Z :=
  match v with
  | JNull => Some 0
  | JBool b => Some (if b then 1 else 0)
  | JNum n => Some n
  | JStr s => StringToNumber s
  | JArr _ | JObj _ => StringToNumber (ToString v)
  end.

(** [n >= v] for a number [n]. *)
Definition num_ge `{Platform} (n : Z) (v : JSValue) : bool :=
  match ToNumber v with
  | Some t => t <=? n
  | None => false
  end.

(** [String.prototype.includes] *)
Fixpoint includes (s kw : string) : bool :=
  String.prefix kw s ||
  match s with
  | EmptyString => false
  | String _ rest => includes rest kw
  end.

(** ** Data model *)

(** [request.emailData]: a field that the sending script left out is [None]. *)
Record EmailData : Type := {
  from : option string;
  subject : option string;
  body : option string;
  links : option (list string);
  emailId : option string;
}.

(** The four validated fields of a result.  A result parsed from the remote
    reply is the parsed object itself, so it keeps any further property of
    that object ([others]) and its indicators may be arbitrary values. *)
Record AnalysisResult : Type := {
  isPhishing : bool;
  confidence : Z;
  indicators : list JSValue;
  recommendation : string;
  others : list (string * JSValue);
}.

(** ** The local heuristic scanner (background.js, runLocalBasicScan) *)

Definition PHISHING_THRESHOLD : Z := 45.

Definition keywords : list string :=
  [ "urgent"; "account suspended"; "verify account"; "click here to update";
    "password expired"; "payment failed"; "unauthorized access"; "invoice attached" ].

Definition dquote : string := String (ascii_of_nat 34) "".

Definition keyword_indicator (kw : string) : JSValue :=
  JStr ("Keyword detected: " +:+ dquote +:+ kw +:+ dquote).

Definition LINKS_FOUND : JSValue := JStr "Links found (Requires manual verification)".
Definition LINK_MISMATCH : JSValue :=
  JStr "Link domain does not match email context (high risk)".

Definition REC_PHISHING : string :=
  "Potential Phishing Detected via Local Scan. Use extreme caution and manually verify the sender and links.".
Definition REC_CAUTIOUS : string :=
  "Email appears safe based on basic local checks, but minor indicators were found. Use caution for complex or novel threats.".
Definition REC_SAFE : string :=
  "Email appears safe based on basic local checks.".
Definition FALLBACK_NOTICE : string := "API Scan failed due to error/limit. ".

(** The scanner's two accumulators. *)
Definition Accum : Type := list JSValue * Z.

Definition keyword_hit (body subject kw : string) : bool :=
  includes body kw || includes subject kw.

(** The body of the [keywords.forEach] callback. *)
Definition keyword_step (body subject : string) (acc : Accum) (kw : string) : Accum :=
  if keyword_hit body subject kw
  then (acc.1 ++ [keyword_indicator kw], acc.2 + 15)
  else acc.

(** The callback of [emailData.links.some]. *)
Definition link_mismatch `{Platform} (body subject link : string) : bool :=
  match URL_hostname link with
  | Some hostname =>
      negb (includes body (toLowerCase hostname))
      && negb (includes subject (toLowerCase hostname))
  | None => true
  end.

(** The [if (emailData.links && emailData.links.length > 0)] block. *)
Definition links_step `{Platform} (body subject : string)
    (links : option (list string)) (acc : Accum) : Accum :=
  match links with
  | Some ((_ :: _) as ls) =>
      let acc :=
        if acc.2 <? PHISHING_THRESHOLD
        then (acc.1 ++ [LINKS_FOUND], acc.2 + 10)
        else acc in
      let linkMismatch := existsb (link_mismatch body subject) ls in
      if linkMismatch
      then (acc.1 ++ [LINK_MISMATCH], acc.2 + 30)
      else acc
  | _ => acc
  end.

Definition local_recommendation (isPhishing : bool) (confidence : Z) : string :=
  if isPhishing then REC_PHISHING
  else if 0 <? confidence then REC_CAUTIOUS
  else REC_SAFE.

(** [s.toLowerCase()] on a possibly absent string. *)
Definition lower_field `{Platform} (field : option string) : Outcome string :=
  match field with
  | Some s => Returned (toLowerCase s)
  | None => Thrown TypeError
  end.

Definition runLocalBasicScan `{Platform} (emailData : EmailData) (isFallback : bool)
    : Outcome AnalysisResult :=
  body ← lower_field (body emailData);
  subject ← lower_field (subject emailData);
  let acc := fold_left (keyword_step body subject) keywords ([], 0) in
  let acc := links_step body subject (links emailData) acc in
  let confidence := Z.min acc.2 90 in
  let isPhishing := PHISHING_THRESHOLD <=? confidence in
  let recommendation := local_recommendation isPhishing confidence in
  let recommendation :=
    if isFallback then FALLBACK_NOTICE +:+ recommendation else recommendation in
  Returned {| isPhishing := isPhishing;
              confidence := confidence;
              indicators := acc.1;
              recommendation := recommendation;
              others := [] |}.

(** ** The store and the world *)

(** [chrome.storage.local]: string keys, JSON values. *)
Abbreviation Store := (gmap string JSValue).

(** Computations over the store that may throw. *)
Definition M (A : Type) : Type := Store → Outcome A * Store.

#[global] Instance M_ret : MRet M := λ A a st, (Returned a, st).
#[global] Instance M_bind : MBind M := λ A B k m st,
  match m st with
  | (Returned a, st') => k a st'
  | (Thrown e, st') => (Thrown e, st')
  end.

Definition throw {A} (e : exn) : M A := λ st, (Thrown e, st).
Definition lift {A} (o : Outcome A) : M A := λ st, (o, st).
Definition try_catch {A} (m : M A) (handler : exn → M A) : M A := λ st,
  match m st with
  | (Returned a, st') => (Returned a, st')
  | (Thrown e, st') => handler e st'
  end.

(** [chrome.storage.local.set({[key]: value})] *)
Definition storage_set (key : string) (value : JSValue) : M unit :=
  λ st, (Returned tt, <[key := value]> st).
(** [chrome.storage.local.get(null)] *)
Definition storage_get_all : M Store := λ st, (Returned st, st).
(** [chrome.storage.local.remove(keys)] *)
Definition storage_remove (keys : list string) : M unit :=
  λ st, (Returned tt, foldr delete st keys).

(** The object that [chrome.storage.local.get([...four keys...])] yields. *)
Record Settings : Type := {
  or_api_key : option JSValue;
  or_endpoint : option JSValue;
  or_model : option JSValue;
  user_threshold : option JSValue;
}.

Definition read_settings (st : Store) : Settings :=
  {| or_api_key := st !! "or_api_key";
     or_endpoint := st !! "or_endpoint";
     or_model := st !! "or_model";
     user_threshold := st !! "user_threshold" |}.

Definition storage_get_settings : M Settings := λ st, (Returned (read_settings st), st).

(** What the request to the service is built from. *)
Record Request : Type := {
  req_endpoint : JSValue;
  req_apiKey : option JSValue;
  req_model : JSValue;
  req_from : option string;
  req_subject : option string;
  req_body : string;
  req_links : string;
}.

(** What [await fetch(...)] gives: a rejection (network error), or a response
    with its [ok] flag, its status and the value of [response.json()]
    ([None] when that promise rejects). *)
Inductive FetchOutcome : Type :=
| FetchRejected (e : exn)
| FetchResponse (ok : bool) (status : Z) (json : option JSValue).

(** The world outside the extension: the service, and the two readings of
    [Date.now()] (for the storage key, for the timestamp). *)
Record World : Type := {
  fetch : Request → FetchOutcome;
  now_key : Z;
  now_stamp : Z;
}.

(** ** The remote scanner (background.js, analyzeEmailWithOpenRouter) *)

(** The two accesses that can throw while the prompt is built:
    [emailData.body.substring(0, 2000)] and
    [emailData.links.slice(0, 10).join(', ')]. *)
Definition prompt_parts (emailData : EmailData) : Outcome (string * string) :=
  match body emailData with
  | None => Thrown TypeError
  | Some b =>
      match links emailData with
      | None => Thrown TypeError
      | Some ls => Returned (String.substring 0 2000 b, join ", " (take 10 ls))
      end
  end.

(** The structure check on the parsed reply. *)
Definition validate (parsed : JSValue) : Outcome AnalysisResult :=
  p ← get_prop parsed "isPhishing";
  c ← get_prop parsed "confidence";
  i ← get_prop parsed "indicators";
  r ← get_prop parsed "recommendation";
  match p, c, i, r with
  | Some (JBool p), Some (JNum c), Some (JArr i), Some (JStr r) =>
      Returned {| isPhishing := p;
                  confidence := c;
                  indicators := i;
                  recommendation := r;
                  others :=
                    match parsed with
                    | JObj fields =>
                        filter (λ f, f.1 ∉ ["isPhishing"; "confidence";
                                             "indicators"; "recommendation"]) fields
                    | _ => []
                    end |}
  | _, _, _, _ => Thrown (Error "Invalid response structure from API")
  end.

(** Rule 1 (background.js lines 235-243): indicators force the flag and a
    confidence of at least 50. *)
Definition enforce_indicators (result : AnalysisResult) : AnalysisResult :=
  if (0 <? length (indicators result))%nat
  then {| isPhishing := true;
          confidence := Z.max (confidence result) 50;
          indicators := indicators result;
          recommendation := recommendation result;
          others := others result |}
  else result.

(** Rule 2 (lines 245-249): the user threshold. *)
Definition apply_threshold `{Platform} (threshold : JSValue) (result : AnalysisResult)
    : AnalysisResult :=
  if num_ge (confidence result) threshold && negb (isPhishing result)
  then {| isPhishing := true;
          confidence := confidence result;
          indicators := indicators result;
          recommendation :=
            "Flagged due to high confidence (" +:+ pretty (confidence result)
            +:+ "%) exceeding threshold (" +:+ ToString threshold +:+ "%). "
            +:+ recommendation result;
          others := others result |}
  else result.

(** The reconciliation step: rule 1, then rule 2. *)
Definition reconcile `{Platform} (threshold : JSValue) (result : AnalysisResult)
    : AnalysisResult :=
  apply_threshold threshold (enforce_indicators result).

(** The own properties of a result object. *)
Definition result_fields (result : AnalysisResult) : list (string * JSValue) :=
  [ ("isPhishing", JBool (isPhishing result));
    ("confidence", JNum (confidence result));
    ("indicators", JArr (indicators result));
    ("recommendation", JStr (recommendation result)) ] ++ others result.

(** [{...fields, [name]: value}] *)
Fixpoint set_field (name : string) (value : JSValue) (fields : list (string * JSValue))
    : list (string * JSValue) :=
  match fields with
  | [] => [(name, value)]
  | (k, v) :: rest =>
      if String.eqb k name then (k, value) :: rest
      else (k, v) :: set_field name value rest
  end.

(** A property whose value may be [undefined]; the store drops those. *)
Definition opt_field (name : string) (value : option string) : list (string * JSValue) :=
  match value with
  | Some s => [(name, JStr s)]
  | None => []
  end.

(** The record written to the store (lines 253-264). *)
Definition stored_record (emailData : EmailData) (result : AnalysisResult)
    (model threshold : JSValue) (timestamp : Z) : JSValue :=
  JObj
    (set_field "settings" (JObj [("model", model); ("threshold", threshold)])
      (set_field "emailData"
         (JObj (opt_field "from" (from emailData)
                ++ opt_field "subject" (subject emailData)))
         (set_field "timestamp" (JNum timestamp) (result_fields result)))).

(** [`analysis_${emailData.emailId || Date.now()}`] *)
Definition analysis_key (emailData : EmailData) (now : Z) : string :=
  "analysis_" +:+
  match emailId emailData with
  | Some id => if String.eqb id "" then pretty now else id
  | None => pretty now
  end.

Definition DEFAULT_ENDPOINT : JSValue := JStr "https://openrouter.ai/api/v1/chat/completions".
Definition DEFAULT_MODEL : JSValue := JStr "meta-llama/llama-3.2-3b-instruct:free".
Definition DEFAULT_THRESHOLD : JSValue := JNum 70.

(** The [if (!response.ok)] block: it always throws. *)
Definition http_error {A} (status : Z) (json : option JSValue) : Outcome A :=
  let errorData := default (JObj []) json in
  err ← get_prop errorData "error";
  let message := get_prop_opt err "message" in
  Thrown (Error (if truthy_opt message
                 then from_option ToString "" message
                 else "API request failed: " +:+ pretty status)).

(** Lines 206-233: from the response to the validated result. *)
Definition read_reply `{Platform} (json : option JSValue) : Outcome AnalysisResult :=
  match json with
  | None => Thrown SyntaxError
  | Some data =>
      choices ← get_prop data "choices";
      first ← get_index0 choices;
      let content := get_prop_opt (get_prop_opt first "message") "content" in
      if negb (truthy_opt content) then Thrown (Error "No response from API")
      else
        match content with
        | Some (JStr content) =>
            match find_object_span content with
            | None =>
                Thrown (Error "Invalid response format from API. Expected JSON object.")
            | Some jsonMatch =>
                match JSON_parse jsonMatch with
                | None => Thrown SyntaxError
                | Some result => validate result
                end
            end
        | _ => Thrown TypeError
        end
  end.

Definition analyzeEmailWithOpenRouter `{Platform} (emailData : EmailData)
    (settings : Settings) (world : World) : M AnalysisResult :=
  let apiKey := or_api_key settings in
  let endpoint := or_else (or_endpoint settings) DEFAULT_ENDPOINT in
  let model := or_else (or_model settings) DEFAULT_MODEL in
  let threshold := or_else (user_threshold settings) DEFAULT_THRESHOLD in
  if negb (truthy_opt apiKey)
  then throw (Error "API key not configured. Please set it in the extension popup.")
  else
    parts ← lift (prompt_parts emailData);
    let request := {| req_endpoint := endpoint; req_apiKey := apiKey;
                      req_model := model;
                      req_from := from emailData; req_subject := subject emailData;
                      req_body := parts.1; req_links := parts.2 |} in
    result ← lift (match fetch world request with
                   | FetchRejected e => Thrown e
                   | FetchResponse false status json => http_error status json
                   | FetchResponse true _ json => read_reply json
                   end);
    let result := reconcile threshold result in
    _ ← storage_set (analysis_key emailData (now_key world))
          (stored_record emailData result model threshold (now_stamp world));
    mret result.

(** ** The analysis router (background.js, analyzeEmail) *)

Definition analyzeEmail `{Platform} (emailData : EmailData) (world : World)
    : M AnalysisResult :=
  settings ← storage_get_settings;
  if negb (truthy_opt (or_api_key settings))
  then lift (runLocalBasicScan emailData false)
  else
    try_catch (analyzeEmailWithOpenRouter emailData settings world)
      (λ error, lift (runLocalBasicScan emailData true)).

(** ** Retention (popup script, cleanupOldResults) *)

Definition is_analysis_key (k : string) : Prop := String.prefix "analysis_" k.

#[global] Instance is_analysis_key_dec k : Decision (is_analysis_key k).
Proof. unfold is_analysis_key. apply _. Defined.

(** [Object.keys(storage)]; the order of enumeration is the map's, and the
    sort that follows makes it irrelevant. *)
Definition Object_keys (storage : Store) : list string := (map_to_list storage).*1.

(** [Object.keys(storage).filter(k => k.startsWith('analysis_')).sort().reverse()] *)
Definition analysisKeys (storage : Store) : list string :=
  reverse (merge_sort String.le (filter is_analysis_key (Object_keys storage))).

Definition cleanupOldResults : M unit :=
  storage ← storage_get_all;
  let analysisKeys := analysisKeys storage in
  if (10 <? length analysisKeys)%nat
  then
    let keysToRemove := drop 10 analysisKeys in
    storage_remove keysToRemove
  else mret tt.

(** ** The message listener (background.js, lines 3-20) *)

(** [request], by its [action].  The e-mail of an [analyzeEmail] request is
    present; its fields may be absent. *)
Inductive Message : Type :=
| MsgAnalyzeEmail (emailData : EmailData)
| MsgShowNotification (title message : option JSValue)
| MsgOther.

(** The object passed to [sendResponse]. *)
Inductive Reply : Type :=
| ReplySuccess (result : AnalysisResult)
| ReplyFailure (error : string).

(** What the listener does with a request: whether it returns [true] to keep
    the channel open, the reply it sends once the analysis settles, and the
    notification it creates ([title], [message]). *)
Record Handled : Type := {
  keep_open : bool;
  reply : option Reply;
  notification : option (option JSValue * option JSValue);
}.

(** [error.message]: the text given to [new Error], and the engine's own
    text for the errors the engine raises. *)
Definition error_message (engine_message : exn → string) (e : exn) : string :=
  match e with
  | Error message => message
  | _ => engine_message e
  end.

Definition onMessage `{Platform} (engine_message : exn → string)
    (request : Message) (world : World) (st : Store) : Handled * Store :=
  match request with
  | MsgAnalyzeEmail emailData =>
      match analyzeEmail emailData world st with
      | (Returned result, st') =>
          ({| keep_open := true; reply := Some (ReplySuccess result);
              notification := None |}, st')
      | (Thrown error, st') =>
          ({| keep_open := true;
              reply := Some (ReplyFailure (error_message engine_message error));
              notification := None |}, st')
      end
  | MsgShowNotification title message =>
      ({| keep_open := false; reply := None;
          notification := Some (title, message) |}, st)
  | MsgOther =>
      ({| keep_open := false; reply := None; notification := None |}, st)
  end.

(** ** The popup (popup script) *)

(** Host functions of the popup. *)
Class PopupHost : Type := {
  (** [String.prototype.trim] *)
  trim : string → string;
  (** [parseInt(s, 10)]; [None] is [NaN] *)
  parseInt10 : string → option Z;
  (** [new Date(v).toLocaleString()] *)
  toLocaleString : option JSValue → string;
}.

(** The [value]s of the four form fields. *)
Record Form : Type := {
  apiKeyEl : string;
  endpointEl : string;
  modelEl : string;
  thresholdEl : string;
}.

(** One assignment to the document: the property written, by the name the
    script reaches it with, and the string written. *)
Definition Write : Type := string * string.

(** [showStatus(elementId, message, type)]: the two assignments it makes.
    The timer that hides the message five seconds later is not part of the
    model. *)
Definition showStatus (elementId message type : string) : list Write :=
  [ (elementId +:+ ".textContent", message);
    (elementId +:+ ".className", "status-message show " +:+ type) ].

(** [chrome.storage.local.set(items)] with several keys. *)
Definition storage_set_all (items : list (string * JSValue)) : M unit :=
  λ st, (Returned tt, foldl (λ acc kv, <[kv.1 := kv.2]> acc) st items).

(** [Math.max(1, Math.min(100, parseInt(value, 10) || 70))] *)
Definition clamp_threshold `{PopupHost} (value : string) : Z :=
  Z.max 1 (Z.min 100 (match parseInt10 value with
                      | Some n => if n =? 0 then 70 else n
                      | None => 70
                      end)).

Definition saveSettings `{PopupHost} (form : Form) : M (list Write) :=
  let k := trim (apiKeyEl form) in
  let e := trim (endpointEl form) in
  let m := trim (modelEl form) in
  let t := clamp_threshold (thresholdEl form) in
  if String.eqb k ""
  then mret (showStatus "key-status" "Please enter an API key" "error")
  else if negb (String.prefix "sk-or-" k)
  then mret (showStatus "key-status"
               "Invalid API key format (should start with sk-or-)" "error")
  else
    _ ← storage_set_all [ ("or_api_key", JStr k); ("or_endpoint", JStr e);
                          ("or_model", JStr m); ("user_threshold", JNum t) ];
    mret (showStatus "key-status" "✓ Settings saved successfully" "success").

Definition clearApiKey : M (list Write) :=
  _ ← storage_remove ["or_api_key"];
  mret (("apiKey.value", "") :: showStatus "key-status" "API key cleared" "info").

(** Lines 10-29 of [init]: the stored settings put into the form.  The key
    field is written only when a key is stored. *)
Definition populate_form (stored : Settings) : list Write :=
  (if truthy_opt (or_api_key stored)
   then ("apiKey.value", from_option ToString "" (or_api_key stored))
        :: showStatus "key-status" "API key configured" "success"
   else [])
  ++ [ ("endpoint.value", ToString (or_else (or_endpoint stored) DEFAULT_ENDPOINT));
       ("model.value", ToString (or_else (or_model stored) DEFAULT_MODEL));
       ("threshold.value", ToString (or_else (user_threshold stored) DEFAULT_THRESHOLD)) ].

(** [Object.keys(storage).filter(k => k.startsWith('analysis_')).sort().pop()] *)
Definition latestKey (storage : Store) : option string :=
  last (merge_sort String.le (filter is_analysis_key (Object_keys storage))).

(** [storage[latestKey]], the value handed to [displayResult]. *)
Definition latestResult (storage : Store) : option JSValue :=
  k ← latestKey storage; storage !! k.

(** [v >= n] for a number [n]. *)
Definition value_ge `{Platform} (v : JSValue) (n : Z) : bool :=
  match ToNumber v with
  | Some x => n <=? x
  | None => false
  end.

(** [v > n] for a possibly undefined [v] and a number [n]. *)
Definition value_gt `{Platform} (v : option JSValue) (n : Z) : bool :=
  match v with
  | Some v => match ToNumber v with
              | Some x => n <? x
              | None => false
              end
  | None => false
  end.

(** [v.length] for a truthy JSON value [v]. *)
Definition get_length (v : JSValue) : option JSValue :=
  match v with
  | JArr items => Some (JNum (Z.of_nat (length items)))
  | JStr s => Some (JNum (Z.of_nat (String.length s)))
  | JObj fields => assoc "length" fields
  | _ => None
  end.

(** Whether a value can be converted to a primitive: the conversion of an
    object or an array to a number fails exactly when its conversion to a
    string does. *)
Definition converts (v : JSValue) : bool :=
  match ToString_opt v with
  | Some _ => true
  | None => false
  end.

(** [v > n] as the engine evaluates it: the conversion of [v] may throw. *)
Definition value_gt_conv `{Platform} (v : option JSValue) (n : Z) : Outcome bool :=
  match v with
  | Some x => if converts x then Returned (value_gt v n) else Thrown TypeError
  | None => Returned false
  end.

(** [`<li>${indicator}</li>`]; the template literal throws ([None]) on an
    indicator that cannot be converted to a string. *)
Definition indicator_item (indicator : JSValue) : option string :=
  text ← ToString_opt indicator; Some ("<li>" +:+ text +:+ "</li>").

(** [result.indicators.map(indicator => `<li>${indicator}</li>`).join('')];
    only an array has a [map] that can be called. *)
Definition indicators_html (v : JSValue) : Outcome string :=
  match v with
  | JArr items =>
      match mapM indicator_item items with
      | Some lis => Returned (join "" lis)
      | None => Thrown TypeError
      end
  | _ => Thrown TypeError
  end.

(** [new Date(v).toLocaleString()]: the constructor converts [v] to a
    primitive first. *)
Definition date_text `{PopupHost} (v : option JSValue) : Outcome string :=
  match v with
  | Some x => if converts x then Returned (toLocaleString v) else Thrown TypeError
  | None => Returned (toLocaleString v)
  end.

(** Lines 240-242 of [displayResult], after the assignments [written]. *)
Definition display_stats `{PopupHost} (result : JSValue) (written : list Write)
    : list Write * option exn :=
  match date_text (get_prop_opt (Some result) "timestamp") with
  | Returned timestamp =>
      (written ++ [("stats-text.textContent", "Last scan: " +:+ timestamp)], None)
  | Thrown e => (written, Some e)
  end.

(** [displayResult(result)]: the assignments it makes, in order, and the
    exception that ends it early, if any.  The elements of the popup page
    it looks up are taken to exist. *)
Definition displayResult `{Platform} `{PopupHost} (result : option JSValue)
    : list Write * option exn :=
  let shown := [("results-section.style.display", "block")] in
  match result with
  | None => (shown, Some TypeError)
  | Some result =>
  match get_prop result "isPhishing" with
  | Thrown e => (shown, Some e)
  | Returned isPhishing =>
      let isPhishing := truthy_opt isPhishing in
      let titled :=
        shown ++
        [ ("result-header.className",
           "result-header " +:+ (if isPhishing then "danger" else "safe"));
          ("result-icon.textContent", if isPhishing then "⚠️" else "✅");
          ("result-title.textContent",
           if isPhishing then "Potential Phishing Detected" else "Email Appears Safe") ] in
      let confidence := or_else (get_prop_opt (Some result) "confidence") (JNum 0) in
      match ToString_opt confidence with
      | None => (titled, Some TypeError)
      | Some percent =>
      let background :=
        if value_ge confidence 80
        then (if isPhishing then "#ef4444" else "#10b981")
        else if value_ge confidence 50 then "#f59e0b"
        else "#6b7280" in
      let rated :=
        titled ++
        [ ("confidence-fill.style.width", percent +:+ "%");
          ("confidence-fill.style.background", background);
          ("confidence-text.textContent", percent +:+ "% confidence") ] in
      let recommendation :=
        or_else (get_prop_opt (Some result) "recommendation")
          (JStr "No specific recommendation") in
      match ToString_opt recommendation with
      | None => (rated, Some TypeError)
      | Some advice =>
      let head := rated ++ [("recommendation-text.textContent", advice)] in
      let hidden := head ++ [("indicators-section.style.display", "none")] in
      match get_prop_opt (Some result) "indicators" with
      | Some indicators =>
          if truthy indicators
          then
            match value_gt_conv (get_length indicators) 0 with
            | Thrown e => (head, Some e)
            | Returned true =>
                let head := head ++ [("indicators-section.style.display", "block")] in
                match indicators_html indicators with
                | Returned html =>
                    display_stats result (head ++ [("indicators-list.innerHTML", html)])
                | Thrown e => (head, Some e)
                end
            | Returned false => display_stats result hidden
            end
          else display_stats result hidden
      | None => display_stats result hidden
      end
      end
      end
  end
  end.

(** [Object.keys(storage).filter(k => k.startsWith('analysis_'))], as
    [loadLastResult] and [pollForResult] take it before sorting. *)
Definition storedAnalysisKeys (storage : Store) : list string :=
  filter is_analysis_key (Object_keys storage).

(** [loadLastResult]: it displays the latest stored analysis, if any. *)
Definition loadLastResult `{Platform} `{PopupHost} (storage : Store)
    : list Write * option exn :=
  if (0 <? length (storedAnalysisKeys storage))%nat
  then displayResult (latestResult storage)
  else ([], None).

(** How far [pollForResult] has got, with the assignments made so far. *)
Inductive PollOutcome : Type :=
| PollShown (attempts : nat) (writes : list Write)
| PollTimedOut (attempts : nat) (writes : list Write)
| PollRunning (attempts : nat) (writes : list Write).

Definition maxAttempts : nat := 30.

(** The interval callback of [pollForResult], tick after tick.  [snapshot n]
    is the store as the [n]-th callback reads it; each callback is taken to
    finish before the next tick.  A callback in which [displayResult] throws
    never reaches [clearInterval], so the interval keeps running.  [fuel]
    bounds the number of ticks followed; [PollRunning] is the state when it
    runs out. *)
Fixpoint poll_ticks `{Platform} `{PopupHost} (snapshot : nat → Store)
    (attempts fuel : nat) (written : list Write) : PollOutcome :=
  match fuel with
  | O => PollRunning attempts written
  | S fuel =>
      let attempts := S attempts in
      let storage := snapshot attempts in
      if (0 <? length (storedAnalysisKeys storage))%nat
      then
        match displayResult (latestResult storage) with
        | (writes, None) =>
            PollShown attempts
              (written ++ writes ++ showStatus "scan-status" "Analysis complete!" "success")
        | (writes, Some _) => poll_ticks snapshot attempts fuel (written ++ writes)
        end
      else if (maxAttempts <=? attempts)%nat
      then PollTimedOut attempts
             (written ++ showStatus "scan-status"
                           "Analysis timed out. Please try again." "error")
      else poll_ticks snapshot attempts fuel written
  end.

Definition pollForResult `{Platform} `{PopupHost} (snapshot : nat → Store) (fuel : nat)
    : PollOutcome :=
  poll_ticks snapshot 0 fuel [].

(** ** The local heuristic scanner on an arbitrary payload

    [runLocalBasicScan] (background.js, lines 52-128) once more, for an
    [emailData] that is any JSON value: the message comes from another
    script, and nothing checks its fields before the scanner reads them. *)

(** [v.toLowerCase()] on a possibly undefined value: only a string has the
    method. *)
Definition lower_value `{Platform} (v : option JSValue) : Outcome string :=
  match v with
  | Some (JStr s) => Returned (toLowerCase s)
  | _ => Thrown TypeError
  end.

(** The callback of [emailData.links.some] on any element.  [new URL(link)]
    converts the element to a string; a conversion that throws does so
    inside the [try], like the parser. *)
Definition link_value_mismatch `{Platform} (body subject : string) (link : JSValue)
    : bool :=
  match ToString_opt link with
  | Some text => link_mismatch body subject text
  | None => true
  end.

(** The [if (emailData.links && emailData.links.length > 0)] block; only an
    array has a [some] that can be called. *)
Definition links_value_step `{Platform} (body subject : string)
    (links : option JSValue) (acc : Accum) : Outcome Accum :=
  match links with
  | Some links =>
      if truthy links
      then
        positive ← value_gt_conv (get_length links) 0;
        if positive : bool
        then
          let acc :=
            if acc.2 <? PHISHING_THRESHOLD
            then (acc.1 ++ [LINKS_FOUND], acc.2 + 10)
            else acc in
          match links with
          | JArr items =>
              let linkMismatch := existsb (link_value_mismatch body subject) items in
              Returned (if linkMismatch
                        then (acc.1 ++ [LINK_MISMATCH], acc.2 + 30)
                        else acc)
          | _ => Thrown TypeError
          end
        else Returned acc
      else Returned acc
  | None => Returned acc
  end.

Definition runLocalBasicScan_value `{Platform} (emailData : JSValue) (isFallback : bool)
    : Outcome AnalysisResult :=
  b ← get_prop emailData "body";
  body ← lower_value b;
  s ← get_prop emailData "subject";
  subject ← lower_value s;
  let acc := fold_left (keyword_step body subject) keywords ([], 0) in
  l ← get_prop emailData "links";
  acc ← links_value_step body subject l acc;
  let confidence := Z.min acc.2 90 in
  let isPhishing := PHISHING_THRESHOLD <=? confidence in
  let recommendation := local_recommendation isPhishing confidence in
  let recommendation :=
    if isFallback then FALLBACK_NOTICE +:+ recommendation else recommendation in
  Returned {| isPhishing := isPhishing;
              confidence := confidence;
              indicators := acc.1;
              recommendation := recommendation;
              others := [] |}.

(** ** A small platform for running the model

    Exact on the inputs used below: ASCII text, links of the plain form
    [http(s)://host/path], thresholds written in decimal digits, replies
    without markdown fences.  [JSON_parse] knows the finitely many texts it
    is given. *)
Module TestPlatform.

Definition lower_ascii (c : ascii) : ascii :=
  let n := nat_of_ascii c in
  if ((65 <=? n) && (n <=? 90))%nat then ascii_of_nat (n + 32) else c.

Fixpoint lower (s : string) : string :=
  match s with
  | EmptyString => EmptyString
  | String c rest => String (lower_ascii c) (lower rest)
  end.

Definition strip_prefix (p s : string) : option string :=
  if String.prefix p s
  then Some (String.substring (String.length p) (String.length s - String.length p) s)
  else None.

Definition host_end (c : ascii) : bool :=
  existsb (Ascii.eqb c) ["/"; ":"; "?"; "#"]%char.

Fixpoint take_host (s : string) : string :=
  match s with
  | EmptyString => EmptyString
  | String c rest => if host_end c then EmptyString else String c (take_host rest)
  end.

Definition hostname (link : string) : option string :=
  match strip_prefix "https://" link, strip_prefix "http://" link with
  | Some rest, _ | None, Some rest =>
      match take_host rest with
      | EmptyString => None
      | h => Some (lower h)
      end
  | None, None => None
  end.

Fixpoint digits (s : string) (acc : Z) : option Z :=
  match s with
  | EmptyString => Some acc
  | String c rest =>
      match Ascii.is_nat c with
      | Some d => digits rest (10 * acc + Z.of_nat d)
      | None => None
      end
  end.

Fixpoint last_brace (s : string) : option nat :=
  match s with
  | EmptyString => None
  | String c rest =>
      match last_brace rest with
      | Some n => Some (S n)
      | None => if Ascii.eqb c "}" then Some O else None
      end
  end.

Definition object_span (s : string) : option string :=
  match String.index 0 "{" s with
  | Some i =>
      let tail := String.substring i (String.length s - i) s in
      match last_brace tail with
      | Some j => Some (String.substring 0 (S j) tail)
      | None => None
      end
  | None => None
  end.

Fixpoint lookup_text (s : string) (known : list (string * JSValue)) : option JSValue :=
  match known with
  | [] => None
  | (k, v) :: rest => if String.eqb k s then Some v else lookup_text s rest
  end.

Definition platform (known : list (string * JSValue)) : Platform :=
  {| toLowerCase := lower;
     URL_hostname := hostname;
     StringToNumber := λ s, digits s 0;
     find_object_span := object_span;
     JSON_parse := λ s, lookup_text s known |}.

End TestPlatform.

(** ** A small popup host for running the model

    Exact on the inputs used below: ASCII text with spaces as the only
    white space, thresholds written as an optional sign and decimal digits.
    Its [toLocaleString] prints the timestamp as it is. *)
Module TestHost.

Fixpoint ltrim (s : string) : string :=
  match s with
  | String " " rest => ltrim rest
  | _ => s
  end.

Definition trim_spaces (s : string) : string :=
  String.rev (ltrim (String.rev (ltrim s))).

Fixpoint leading_digits (s : string) (acc : option Z) : option Z :=
  match s with
  | EmptyString => acc
  | String c rest =>
      match Ascii.is_nat c with
      | Some d => leading_digits rest (Some (10 * default 0 acc + Z.of_nat d))
      | None => acc
      end
  end.

Definition parse_int (s : string) : option Z :=
  match ltrim s with
  | String "-" rest => Z.opp <$> leading_digits rest None
  | String "+" rest => leading_digits rest None
  | rest => leading_digits rest None
  end.

Definition host : PopupHost :=
  {| trim := trim_spaces;
     parseInt10 := parse_int;
     toLocaleString := λ v, from_option ToString "Invalid Date" v |}.

End TestHost.

(** ** Sample inputs *)

Module Samples.

Definition platform : Platform := TestPlatform.platform [].

Definition one_keyword_mail : EmailData :=
  {| from := Some "it@example.org"; subject := Some "urgent";
     body := Some "please read"; links := Some []; emailId := Some "m1" |}.

Definition three_keyword_mail : EmailData :=
  {| from := Some "billing@example.org"; subject := Some "URGENT payment failed";
     body := Some "Your password expired";
     links := Some ["https://Evil.example/login"]; emailId := Some "m2" |}.

Definition mail_without_body : EmailData :=
  {| from := Some "it@example.org"; subject := Some "urgent";
     body := None; links := Some []; emailId := Some "m3" |}.

Definition mail_without_links : EmailData :=
  {| from := Some "it@example.org"; subject := Some "urgent";
     body := Some "please read"; links := None; emailId := Some "m4" |}.

(** The service cannot be reached. *)
Definition offline_world : World :=
  {| fetch := λ _, FetchRejected TypeError;
     now_key := 1700000000000; now_stamp := 1700000000001 |}.

Definition configured_store : Store :=
  {[ "or_api_key" := JStr "sk-or-v1-test" ]}.

Definition quiet_result : AnalysisResult :=
  {| isPhishing := false; confidence := 80; indicators := [];
     recommendation := "Looks fine."; others := [] |}.

(** Two settings and fifteen stored analyses. *)
Definition full_store : Store :=
  list_to_map
    (("or_api_key", JStr "sk-or-v1-test") :: ("user_threshold", JNum 60)
     :: map (λ n : nat, ("analysis_" +:+ pretty (1700000000000 + Z.of_nat n),
                         JObj [("confidence", JNum (Z.of_nat n))]))
            (seq 0 15)).

(** The object the service answers with; [{verdict}] stands for its JSON text. *)
Definition reply_object : JSValue :=
  JObj [ ("isPhishing", JBool false); ("confidence", JNum 30);
         ("indicators", JArr [JStr "Sender domain does not match the brand"]);
         ("recommendation", JStr "Probably fine."); ("note", JStr "n/a") ].

Definition answering_platform : Platform :=
  TestPlatform.platform [("{verdict}", reply_object)].

Definition answering_world : World :=
  {| fetch := λ _,
       FetchResponse true 200
         (Some (JObj [("choices",
                       JArr [JObj [("message",
                                    JObj [("content", JStr "Result: {verdict}")])]])]));
     now_key := 1700000000000; now_stamp := 1700000000001 |}.

(** The reply after reconciliation. *)
Definition reconciled_reply : AnalysisResult :=
  {| isPhishing := true; confidence := 50;
     indicators := [JStr "Sender domain does not match the brand"];
     recommendation := "Probably fine."; others := [("note", JStr "n/a")] |}.

End Samples.

(** ** Vocabulary of the statements *)

(** The keyword terms found in the normalized body or subject. *)
Definition keyword_hits (body subject : string) : list string :=
  filter (λ kw, keyword_hit body subject kw) keywords.

(** The accumulators after the keyword loop. *)
Definition keyword_acc (body subject : string) : Accum :=
  fold_left (keyword_step body subject) keywords ([], 0).

(** [emailData.links && emailData.links.length > 0] *)
Definition has_links (links : option (list string)) : bool :=
  match links with
  | Some (_ :: _) => true
  | _ => false
  end.

(** Some link of the e-mail fails the domain check. *)
Definition any_mismatch `{Platform} (body subject : string)
    (links : option (list string)) : bool :=
  match links with
  | Some ls => existsb (link_mismatch body subject) ls
  | None => false
  end.

(** The recommendation that carries no caution wording. *)
Definition plain_safe (isFallback : bool) : string :=
  if isFallback then FALLBACK_NOTICE +:+ REC_SAFE else REC_SAFE.

(** [emailData] with its [links] field replaced. *)
Definition with_links (emailData : EmailData) (ls : option (list string)) : EmailData :=
  {| from := from emailData; subject := subject emailData; body := body emailData;
     links := ls; emailId := emailId emailData |}.

(** The records of the store whose key has the analysis prefix. *)
Definition analysis_records (st : Store) : Store :=
  filter (λ kv, is_analysis_key kv.1) st.

(** The request a remote scan sends, given the two parts of the prompt. *)
Definition request_of (emailData : EmailData) (settings : Settings)
    (parts : string * string) : Request :=
  {| req_endpoint := or_else (or_endpoint settings) DEFAULT_ENDPOINT;
     req_apiKey := or_api_key settings;
     req_model := or_else (or_model settings) DEFAULT_MODEL;
     req_from := from emailData; req_subject := subject emailData;
     req_body := parts.1; req_links := parts.2 |}.

(** The message payload of a typed e-mail: the object with the fields that
    are present. *)
Definition payload (emailData : EmailData) : JSValue :=
  JObj (opt_field "from" (from emailData)
        ++ opt_field "subject" (subject emailData)
        ++ opt_field "body" (body emailData)
        ++ match links emailData with
           | Some ls => [("links", JArr (JStr <$> ls))]
           | None => []
           end
        ++ opt_field "emailId" (emailId emailData)).

(** An object without the property [name]. *)
Definition remove_field (name : string) (fields : list (string * JSValue))
    : list (string * JSValue) :=
  filter (λ kv, kv.1 ≠ name) fields.

(** ** Further sample inputs *)

Module MoreSamples.

(** A platform whose URL parser knows [mailto:] links: they have an empty
    host name. *)
Definition mailto_platform : Platform :=
  {| toLowerCase := TestPlatform.lower;
     URL_hostname := λ link, if String.prefix "mailto:" link then Some ""
                             else TestPlatform.hostname link;
     StringToNumber := λ s, TestPlatform.digits s 0;
     find_object_span := TestPlatform.object_span;
     JSON_parse := λ _, None |}.

Definition mailto_mail : EmailData :=
  with_links Samples.one_keyword_mail (Some ["mailto:help@example.org"]).

Definition mailto_result : AnalysisResult :=
  {| isPhishing := false; confidence := 25;
     indicators := [keyword_indicator "urgent"; LINKS_FOUND];
     recommendation := REC_CAUTIOUS; others := [] |}.

Definition settings_form : Form :=
  {| apiKeyEl := "  sk-or-v1-test "; endpointEl := ""; modelEl := "some/model";
     thresholdEl := "500" |}.

(** A message whose id sorts before the keys made from the clock. *)
Definition early_id_mail : EmailData :=
  {| from := Some "billing@example.org"; subject := Some "Invoice";
     body := Some "See the invoice"; links := Some []; emailId := Some "0a1f" |}.

(** A reply that contradicts itself: indicators, but not flagged. *)
Definition raw_reply : AnalysisResult :=
  {| isPhishing := false; confidence := 30;
     indicators := [JStr "Sender domain does not match the brand"];
     recommendation := "Probably fine."; others := [] |}.

(** Message payloads as a script may send them: the fields of a typed
    e-mail without links, a body that is a number, links that are a text,
    links that are a number, links with elements that are not texts. *)
Definition fields_without_links : list (string * JSValue) :=
  [ ("from", JStr "it@example.org"); ("subject", JStr "urgent");
    ("body", JStr "please read"); ("emailId", JStr "m4") ].
Definition numeric_body_payload : JSValue :=
  JObj [("subject", JStr "urgent"); ("body", JNum 5); ("links", JArr [])].
Definition text_links_payload : JSValue :=
  JObj [ ("subject", JStr "urgent"); ("body", JStr "please read");
         ("links", JStr "https://evil.example/") ].
Definition numeric_links_payload : JSValue :=
  JObj [ ("subject", JStr "urgent"); ("body", JStr "please read");
         ("links", JNum 3) ].
Definition odd_links_payload : JSValue :=
  JObj [ ("subject", JStr "urgent"); ("body", JStr "please read");
         ("links", JArr [JNum 7; JObj [("toString", JNum 1)]]) ].
(** A reply that passes validation although one of its indicators is an
    object, and one with an own property [toString]. *)
Definition odd_indicator_reply : AnalysisResult :=
  {| isPhishing := true; confidence := 85;
     indicators := [JStr "Lookalike domain"; JObj [("toString", JNum 1)]];
     recommendation := "Do not click."; others := [] |}.

(** The store as the ticks of a poll see it: empty for two ticks, then
    holding the stored analyses. *)
Definition late_snapshot (n : nat) : Store :=
  if (n <? 3)%nat then ∅ else Samples.full_store.

(** A store whose only analysis record is [null]. *)
Definition null_record_store : Store := {[ "analysis_m9" := JNull ]}.

End MoreSamples.

(** * Properties *)

(** ** The local heuristic scanner *)

Section LocalScanner.
Context `{Platform}.

Lemma keyword_fold body subject kws (acc : Accum) :
  fold_left (keyword_step body subject) kws acc =
  (acc.1 ++ map keyword_indicator (filter (λ kw, keyword_hit body subject kw) kws),
   acc.2 + 15 * Z.of_nat (length (filter (λ kw, keyword_hit body subject kw) kws))).
Proof.
  revert acc. induction kws as [|kw kws IH]; intros [ind conf]; simpl.
  - rewrite app_nil_r. f_equal. lia.
  - rewrite IH, filter_cons. unfold keyword_step.
    destruct (keyword_hit body subject kw) eqn:Hhit; simpl.
    + rewrite <- app_assoc. simpl. f_equal. lia.
    + done.
Qed.

Lemma keyword_acc_eq body subject :
  keyword_acc body subject =
  (map keyword_indicator (keyword_hits body subject),
   15 * Z.of_nat (length (keyword_hits body subject))).
Proof. unfold keyword_acc. rewrite keyword_fold. done. Qed.

(** What the links block adds to the accumulators. *)
Lemma links_step_eq body subject links (acc : Accum) :
  links_step body subject links acc =
  (acc.1
     ++ (if has_links links && (acc.2 <? PHISHING_THRESHOLD) then [LINKS_FOUND] else [])
     ++ (if has_links links && any_mismatch body subject links
         then [LINK_MISMATCH] else []),
   acc.2
     + (if has_links links && (acc.2 <? PHISHING_THRESHOLD) then 10 else 0)
     + (if has_links links && any_mismatch body subject links then 30 else 0)).
Proof.
  destruct acc as [ind conf].
  destruct links as [[|l ls]|]; simpl; rewrite ?app_nil_r, ?Z.add_0_r; try done.
  destruct (conf <? PHISHING_THRESHOLD); simpl;
    destruct (link_mismatch body subject l || existsb (link_mismatch body subject) ls);
    simpl; rewrite ?app_nil_r, ?Z.add_0_r, <- ?app_assoc; done.
Qed.

(** The scanner returns exactly when body and subject are present, and
    then its result is the one assembled from the two accumulators. *)
Lemma runLocalBasicScan_Returned emailData isFallback r :
  runLocalBasicScan emailData isFallback = Returned r ↔
  ∃ b s, body emailData = Some b ∧ subject emailData = Some s ∧
    let acc := links_step (toLowerCase b) (toLowerCase s) (links emailData)
                 (keyword_acc (toLowerCase b) (toLowerCase s)) in
    let confidence := Z.min acc.2 90 in
    let isPhishing := PHISHING_THRESHOLD <=? confidence in
    r = {| isPhishing := isPhishing;
           confidence := confidence;
           indicators := acc.1;
           recommendation :=
             (if isFallback then String.append FALLBACK_NOTICE else id)
               (local_recommendation isPhishing confidence);
           others := [] |}.
Proof.
  unfold runLocalBasicScan, keyword_acc.
  destruct (body emailData) as [b|], (subject emailData) as [s|]; simpl.
  - split.
    + intros [= <-]. exists b, s. by destruct isFallback.
    + intros (? & ? & [= <-] & [= <-] & ->). by destruct isFallback.
  - split; [done | by intros (? & ? & _ & ? & _)].
  - split; [done | by intros (? & ? & ? & _)].
  - split; [done | by intros (? & ? & ? & _)].
Qed.

Lemma runLocalBasicScan_total emailData isFallback :
  is_Some (body emailData) → is_Some (subject emailData) →
  ∃ r, runLocalBasicScan emailData isFallback = Returned r.
Proof.
  intros [b Hb] [s Hs]. eexists. apply runLocalBasicScan_Returned.
  exists b, s. split_and!; [done..|]. simpl. reflexivity.
Qed.

Lemma local_recommendation_safe c :
  0 ≤ c → (local_recommendation (PHISHING_THRESHOLD <=? c) c = REC_SAFE ↔ c = 0).
Proof.
  intros Hc. unfold local_recommendation, PHISHING_THRESHOLD.
  destruct (Z.leb 45 c) eqn:H45; [split; [discriminate | lia]|].
  destruct (Z.ltb 0 c) eqn:H0; [split; [discriminate | lia]|].
  split; [lia | done].
Qed.

Lemma fallback_notice_safe (isFallback : bool) (rec : string) :
  (if isFallback then String.append FALLBACK_NOTICE else id) rec = plain_safe isFallback
  ↔ rec = REC_SAFE.
Proof.
  unfold plain_safe. destruct isFallback; [|done].
  split; [apply String.app_inj | by intros ->].
Qed.

(** Confidence and indicators of a returned result, in closed form. *)
Lemma local_result_shape emailData isFallback r :
  runLocalBasicScan emailData isFallback = Returned r →
  ∃ b s, body emailData = Some b ∧ subject emailData = Some s ∧
    let body := toLowerCase b in
    let subject := toLowerCase s in
    let hits := keyword_hits body subject in
    let k := 15 * Z.of_nat (length hits) in
    let generic := has_links (links emailData) && (k <? PHISHING_THRESHOLD) in
    let mismatch := has_links (links emailData)
                    && any_mismatch body subject (links emailData) in
    confidence r =
      Z.min (k + (if generic then 10 else 0) + (if mismatch then 30 else 0)) 90
    ∧ indicators r =
        map keyword_indicator hits
        ++ (if generic then [LINKS_FOUND] else [])
        ++ (if mismatch then [LINK_MISMATCH] else [])
    ∧ isPhishing r = (PHISHING_THRESHOLD <=? confidence r)
    ∧ recommendation r =
        (if isFallback then String.append FALLBACK_NOTICE else id)
          (local_recommendation (isPhishing r) (confidence r)).
Proof.
  intros (b & s & Hb & Hs & Hr)%runLocalBasicScan_Returned.
  exists b, s. split_and!; [done..|].
  rewrite links_step_eq, keyword_acc_eq in Hr. simpl in Hr. subst r. simpl.
  done.
Qed.

Lemma runLocalBasicScan_Thrown emailData isFallback e :
  runLocalBasicScan emailData isFallback = Thrown e →
  body emailData = None ∨ subject emailData = None.
Proof.
  intros Hthrown.
  destruct (body emailData) as [b|] eqn:Hb; [|by left].
  destruct (subject emailData) as [s|] eqn:Hs; [|by right].
  destruct (runLocalBasicScan_total emailData isFallback) as [r Hr];
    [by rewrite ?Hb, ?Hs..|]. congruence.
Qed.
Lemma keyword_indicator_not_links_found kw : keyword_indicator kw ≠ LINKS_FOUND.
Proof. unfold keyword_indicator, LINKS_FOUND. cbv [String.append]. discriminate. Qed.

Lemma links_found_elem (hits : list string) (generic mismatch : bool) :
  LINKS_FOUND ∈ map keyword_indicator hits
                ++ (if generic then [LINKS_FOUND] else [])
                ++ (if mismatch then [LINK_MISMATCH] else [])
  ↔ generic = true.
Proof.
  rewrite !elem_of_app. split.
  - intros [Hin|[Hin|Hin]].
    + apply list_elem_of_fmap in Hin as (kw & Heq & _).
      by destruct (keyword_indicator_not_links_found kw).
    + by destruct generic; [|apply elem_of_nil in Hin].
    + destruct mismatch; [|by apply elem_of_nil in Hin].
      by apply list_elem_of_singleton in Hin.
  - intros ->. right; left. apply list_elem_of_singleton. done.
Qed.

End LocalScanner.

(** Two runs from the design document's list of testable properties: no
    keyword term and no link; the single term urgent in the subject. *)
Example local_scan_clean_mail :
  runLocalBasicScan (H:=Samples.platform)
    {| from := Some "bob@example.org"; subject := Some "Lunch";
       body := Some "See you at noon"; links := Some []; emailId := None |} false
  = Returned {| isPhishing := false; confidence := 0; indicators := [];
                recommendation := REC_SAFE; others := [] |}.
Proof. reflexivity. Qed.

Example local_scan_one_keyword :
  runLocalBasicScan (H:=Samples.platform) Samples.one_keyword_mail false
  = Returned {| isPhishing := false; confidence := 15;
                indicators := [keyword_indicator "urgent"];
                recommendation := REC_CAUTIOUS; others := [] |}.
Proof. reflexivity. Qed.

(** C8: the confidence the local heuristic scanner returns lies in the
    integer range 0..90, and so never reaches 100.  The scanner returns a
    result on every input that carries a body and a subject. *)
Theorem local_confidence_range `{Platform} (emailData : EmailData) (isFallback : bool) :
  match runLocalBasicScan emailData isFallback with
  | Returned r => 0 ≤ confidence r ≤ 90 ∧ confidence r ≠ 100
  | Thrown _ => body emailData = None ∨ subject emailData = None
  end.
Proof.
  destruct (runLocalBasicScan emailData isFallback) as [r|e] eqn:Hrun;
    [|by eapply runLocalBasicScan_Thrown].
  apply local_result_shape in Hrun as (b & s & _ & _ & Hc & _). simpl in Hc.
  rewrite Hc.
  repeat match goal with |- context [if ?c then _ else _] => destruct c end; lia.
Qed.

(** C10: the local heuristic scanner returns confidence 0 exactly when it
    returns no indicator, and it gives the plain safe recommendation (the
    one without caution wording, behind the failure notice in fallback mode)
    exactly when it returns no indicator. *)
Theorem zero_confidence_iff_no_indicator `{Platform} (emailData : EmailData) (isFallback : bool) :
  match runLocalBasicScan emailData isFallback with
  | Returned r =>
      (confidence r = 0 ↔ indicators r = [])
      ∧ (recommendation r = plain_safe isFallback ↔ indicators r = [])
  | Thrown _ => body emailData = None ∨ subject emailData = None
  end.
Proof.
  destruct (runLocalBasicScan emailData isFallback) as [r|e] eqn:Hrun;
    [|by eapply runLocalBasicScan_Thrown].
  apply local_result_shape in Hrun as (b & s & _ & _ & Hc & Hi & Hp & Hr).
  simpl in Hc, Hi.
  assert (0 ≤ confidence r) as Hpos.
  { rewrite Hc.
    repeat match goal with |- context [if ?c then _ else _] => destruct c end; lia. }
  assert (confidence r = 0 ↔ indicators r = []) as Hzero.
  { rewrite Hc, Hi. unfold PHISHING_THRESHOLD.
    destruct (keyword_hits _ _) as [|kw hits]; simpl length; simpl map.
    - destruct (has_links _); simpl; [|done].
      split; [|done]. destruct (any_mismatch _ _ _); simpl; lia.
    - split; [|done].
      repeat match goal with |- context [if ?c then _ else _] => destruct c end; lia. }
  split; [done|].
  rewrite Hr, fallback_notice_safe, Hp, local_recommendation_safe by done. done.
Qed.

(** C7: an e-mail with exactly three of the keyword terms in subject or body
    and exactly one link whose host name occurs nowhere in the normalized
    subject or body gets confidence at least 75 and is flagged.  For every
    e-mail, the generic links-found indicator is present exactly when there
    are links and the keyword accumulator is below 45, and only then is 10
    added to the confidence. *)
Theorem three_keywords_one_foreign_link `{Platform}
    (emailData : EmailData) (isFallback : bool) (b s link hostname : string) :
  body emailData = Some b →
  subject emailData = Some s →
  length (keyword_hits (toLowerCase b) (toLowerCase s)) = 3%nat →
  links emailData = Some [link] →
  URL_hostname link = Some hostname →
  includes (toLowerCase b) (toLowerCase hostname) = false →
  includes (toLowerCase s) (toLowerCase hostname) = false →
  (∃ r, runLocalBasicScan emailData isFallback = Returned r
        ∧ 75 ≤ confidence r ∧ isPhishing r = true)
  ∧ (∀ emailData' isFallback' r',
       runLocalBasicScan emailData' isFallback' = Returned r' →
       ∃ b' s', body emailData' = Some b' ∧ subject emailData' = Some s' ∧
         let acc := keyword_acc (toLowerCase b') (toLowerCase s') in
         let generic := has_links (links emailData') && (acc.2 <? PHISHING_THRESHOLD) in
         let mismatch := has_links (links emailData')
                         && any_mismatch (toLowerCase b') (toLowerCase s')
                              (links emailData') in
         (LINKS_FOUND ∈ indicators r' ↔ generic = true)
         ∧ confidence r' =
             Z.min (acc.2 + (if generic then 10 else 0) + (if mismatch then 30 else 0)) 90).
Proof.
  intros Hb Hs Hhits Hlinks Hhost Hbody Hsubject. split.
  - destruct (runLocalBasicScan_total emailData isFallback) as [r Hr];
      [by rewrite ?Hb, ?Hs..|].
    exists r. split; [done|].
    apply local_result_shape in Hr as (b0 & s0 & Hb0 & Hs0 & Hc & _ & Hp & _).
    simpl in Hc. rewrite Hb in Hb0. rewrite Hs in Hs0. simplify_eq.
    rewrite Hhits, Hlinks in Hc. unfold any_mismatch, link_mismatch in Hc.
    simpl in Hc. rewrite Hhost, Hbody, Hsubject in Hc. simpl in Hc.
    rewrite Hp, Hc. done.
  - intros emailData' isFallback' r' Hr'.
    apply local_result_shape in Hr' as (b' & s' & Hb' & Hs' & Hc & Hi & _).
    exists b', s'. do 2 (split; [done|]).
    cbv zeta. rewrite keyword_acc_eq. cbn [fst snd]. split; [|done].
    rewrite Hi. apply links_found_elem.
Qed.

Lemma three_keywords_one_foreign_link_witness :
  ∃ r, runLocalBasicScan (H:=Samples.platform) Samples.three_keyword_mail true = Returned r
       ∧ 75 ≤ confidence r ∧ isPhishing r = true.
Proof.
  refine (proj1 (three_keywords_one_foreign_link (H:=Samples.platform)
                   Samples.three_keyword_mail true
                   "Your password expired" "URGENT payment failed"
                   "https://Evil.example/login" "evil.example" _ _ _ _ _ _ _));
    reflexivity.
Defined.

(** C2, as stated, fails: an input without a body makes the scanner raise a
    TypeError. *)
Lemma absent_body_raises :
  runLocalBasicScan (H:=Samples.platform) Samples.mail_without_body false = Thrown TypeError.
Proof. reflexivity. Qed.

(** ** The reconciler *)

Section Reconciler.
Context `{Platform}.

Lemma indicators_reconcile threshold r :
  indicators (reconcile threshold r) = indicators r.
Proof.
  unfold reconcile, apply_threshold, enforce_indicators.
  repeat match goal with |- context [if ?c then _ else _] => destruct c end; done.
Qed.

Lemma reconcile_enforces_indicators threshold r :
  indicators r ≠ [] →
  isPhishing (reconcile threshold r) = true ∧ 50 ≤ confidence (reconcile threshold r).
Proof.
  intros Hind. unfold reconcile, apply_threshold, enforce_indicators.
  destruct (indicators r) as [|i l] eqn:Hi; [done|]. simpl.
  rewrite andb_false_r. simpl. split; [done | lia].
Qed.

Lemma reconcile_idem threshold r :
  reconcile threshold (reconcile threshold r) = reconcile threshold r.
Proof.
  unfold reconcile, apply_threshold, enforce_indicators.
  destruct r as [p c i rec o]. simpl.
  destruct i as [|x i]; simpl.
  - destruct (num_ge c threshold && negb p) eqn:Hflip; simpl.
    + rewrite andb_false_r. done.
    + rewrite Hflip. done.
  - rewrite !andb_false_r. simpl. f_equal. lia.
Qed.

(** The threshold the remote scanner reconciles against is
    [settings.user_threshold || 70]: the stored value when it is a number
    other than 0, and 70 when nothing is stored. *)
Lemma threshold_of_settings (t : Z) :
  t ≠ 0 → or_else (Some (JNum t)) DEFAULT_THRESHOLD = JNum t.
Proof. intros Ht. unfold or_else. simpl. by destruct (Z.eqb_spec t 0). Qed.

Lemma threshold_default : or_else None DEFAULT_THRESHOLD = JNum 70.
Proof. reflexivity. Qed.

End Reconciler.

(** ** The router and the remote scanner *)

Section Router.
Context `{Platform}.

Lemma analyzeEmail_eq emailData world st :
  analyzeEmail emailData world st =
  if truthy_opt (st !! "or_api_key")
  then match analyzeEmailWithOpenRouter emailData (read_settings st) world st with
       | (Returned r, st') => (Returned r, st')
       | (Thrown _, st') => (runLocalBasicScan emailData true, st')
       end
  else (runLocalBasicScan emailData false, st).
Proof.
  unfold analyzeEmail, mbind, M_bind, storage_get_settings, try_catch, lift.
  simpl. by destruct (truthy_opt (st !! "or_api_key")).
Qed.

(** The remote scanner writes to the store only as its last step. *)
Lemma remote_outcome emailData settings world st :
  match analyzeEmailWithOpenRouter emailData settings world st with
  | (Returned r, st') =>
      ∃ r0 key record, r = reconcile (or_else (user_threshold settings) DEFAULT_THRESHOLD) r0
                       ∧ st' = <[key := record]> st
  | (Thrown _, st') => st' = st
  end.
Proof.
  unfold analyzeEmailWithOpenRouter, mbind, M_bind, throw, lift, storage_set, mret, M_ret.
  destruct (negb _); [done|].
  destruct (prompt_parts emailData) as [parts|]; [|done].
  destruct (match fetch world _ with FetchRejected e => _ | _ => _ end) as [r0|];
    [|done].
  eauto.
Qed.

Lemma remote_Thrown emailData settings world st e st' :
  analyzeEmailWithOpenRouter emailData settings world st = (Thrown e, st') → st' = st.
Proof.
  intros Hrun. pose proof (remote_outcome emailData settings world st) as Ho.
  by rewrite Hrun in Ho.
Qed.

Lemma local_indicators_confidence emailData isFallback r :
  runLocalBasicScan emailData isFallback = Returned r →
  indicators r ≠ [] →
  10 ≤ confidence r ∧ isPhishing r = (PHISHING_THRESHOLD <=? confidence r).
Proof.
  intros (b & s & _ & _ & Hc & Hi & Hp & _)%local_result_shape Hind.
  split; [|done]. simpl in Hc, Hi. rewrite Hc. rewrite Hi in Hind.
  unfold PHISHING_THRESHOLD in *.
  destruct (keyword_hits _ _) as [|kw hits]; simpl length in *; simpl map in *.
  - destruct (has_links _); simpl in *; [|done].
    destruct (any_mismatch _ _ _); simpl; lia.
  - repeat match goal with |- context [if ?c then _ else _] => destruct c end; lia.
Qed.

Lemma remote_Returned emailData settings world st r st' :
  analyzeEmailWithOpenRouter emailData settings world st = (Returned r, st') →
  ∃ r0, r = reconcile (or_else (user_threshold settings) DEFAULT_THRESHOLD) r0.
Proof.
  intros Hrun. pose proof (remote_outcome emailData settings world st) as Ho.
  rewrite Hrun in Ho. destruct Ho as (r0 & _ & _ & -> & _). eauto.
Qed.

End Router.

Section FailureClasses.
Context `{Platform}.

(** A failure of the steps between the prompt and the validated result is
    the failure of the remote scanner, and leaves the store as it was. *)
Lemma remote_fails_with emailData settings world st parts e :
  truthy_opt (or_api_key settings) = true →
  prompt_parts emailData = Returned parts →
  (∀ request,
     match fetch world request with
     | FetchRejected e' => Thrown e'
     | FetchResponse false status json => http_error status json
     | FetchResponse true _ json => read_reply json
     end = Thrown e) →
  analyzeEmailWithOpenRouter emailData settings world st = (Thrown e, st).
Proof.
  intros Hkey Hparts Hfetch.
  unfold analyzeEmailWithOpenRouter, mbind, M_bind, throw, lift.
  rewrite Hkey, Hparts. simpl. by rewrite Hfetch.
Qed.

(** Non-success HTTP status. *)
Lemma http_error_throws status json :
  ∃ e, http_error (A:=AnalysisResult) status json = Thrown e.
Proof.
  unfold http_error.
  destruct (get_prop (default (JObj []) json) "error"); simpl; eauto.
Qed.

(** A body that is not JSON. *)
Lemma read_reply_not_json : read_reply None = Thrown SyntaxError.
Proof. done. Qed.

(** Empty response: no content, or a falsy one. *)
Lemma read_reply_empty data choices first :
  get_prop data "choices" = Returned choices →
  get_index0 choices = Returned first →
  truthy_opt (get_prop_opt (get_prop_opt first "message") "content") = false →
  read_reply (Some data) = Thrown (Error "No response from API").
Proof.
  intros Hc Hf Hcontent. unfold read_reply. rewrite Hc. simpl. rewrite Hf. simpl.
  by rewrite Hcontent.
Qed.

(** Malformed response: no object in the text, or one that does not parse. *)
Lemma read_reply_malformed data choices first content :
  get_prop data "choices" = Returned choices →
  get_index0 choices = Returned first →
  get_prop_opt (get_prop_opt first "message") "content" = Some (JStr content) →
  find_object_span content = None
  ∨ (∃ span, find_object_span content = Some span ∧ JSON_parse span = None) →
  ∃ e, read_reply (Some data) = Thrown e.
Proof.
  intros Hc Hf Hcontent Hbad. unfold read_reply.
  rewrite Hc. simpl. rewrite Hf. simpl. rewrite Hcontent.
  destruct (negb _); [eauto|].
  destruct Hbad as [->|(span & -> & ->)]; eauto.
Qed.

(** Shape-invalid response: a field is missing or has the wrong type. *)
Lemma validate_Returned parsed r :
  validate parsed = Returned r →
  get_prop parsed "isPhishing" = Returned (Some (JBool (isPhishing r)))
  ∧ get_prop parsed "confidence" = Returned (Some (JNum (confidence r)))
  ∧ get_prop parsed "indicators" = Returned (Some (JArr (indicators r)))
  ∧ get_prop parsed "recommendation" = Returned (Some (JStr (recommendation r))).
Proof.
  unfold validate.
  destruct (get_prop parsed "isPhishing") as [[[]|]|]; simpl; try done;
  destruct (get_prop parsed "confidence") as [[[]|]|]; simpl; try done;
  destruct (get_prop parsed "indicators") as [[[]|]|]; simpl; try done;
  destruct (get_prop parsed "recommendation") as [[[]|]|]; simpl; try done;
  by intros [= <-].
Qed.

Lemma validate_missing_recommendation fields :
  assoc "recommendation" fields = None →
  validate (JObj fields) = Thrown (Error "Invalid response structure from API").
Proof.
  intros Hmissing. unfold validate. simpl. rewrite Hmissing.
  by destruct (assoc "isPhishing" fields) as [[]|],
              (assoc "confidence" fields) as [[]|],
              (assoc "indicators" fields) as [[]|].
Qed.
End FailureClasses.

(** C3: reconciliation is idempotent.  For every result and every threshold
    (any stored value, in particular any integer), applying the two rules
    twice gives the same result as applying them once. *)
Theorem reconcile_idempotent `{Platform} (threshold : JSValue) (r : AnalysisResult) :
  reconcile threshold (reconcile threshold r) = reconcile threshold r
  ∧ ∀ t : Z, reconcile (JNum t) (reconcile (JNum t) r) = reconcile (JNum t) r.
Proof. split; [|intros t]; apply reconcile_idem. Qed.

(** C4: when the confidence of a result is at least the threshold, the
    reconciled result is flagged; and when the flag is flipped by the
    threshold rule (the result was not flagged and has no indicator), the
    recommendation gets the clause naming confidence and threshold in front. *)
Theorem threshold_forces_flag `{Platform} (r : AnalysisResult) (t : Z) :
  t ≤ confidence r →
  isPhishing (reconcile (JNum t) r) = true
  ∧ (isPhishing r = false → indicators r = [] →
     recommendation (reconcile (JNum t) r) =
       "Flagged due to high confidence (" +:+ pretty (confidence r)
       +:+ "%) exceeding threshold (" +:+ pretty t +:+ "%). " +:+ recommendation r).
Proof.
  intros Hge. unfold reconcile, apply_threshold, enforce_indicators.
  destruct r as [p c i rec o]. simpl in *.
  assert (∀ c', c ≤ c' → num_ge c' (JNum t) = true) as Hnum.
  { intros c' Hc'. unfold num_ge. simpl. apply Z.leb_le. lia. }
  destruct i as [|x i]; simpl.
  - rewrite Hnum by lia. destruct p; simpl; [done|]. split; [done|]. done.
  - rewrite andb_false_r. simpl. split; [done|]. done.
Qed.

Lemma threshold_forces_flag_witness :
  isPhishing (reconcile (H:=Samples.platform) (JNum 70) Samples.quiet_result) = true
  ∧ recommendation (reconcile (H:=Samples.platform) (JNum 70) Samples.quiet_result) =
    "Flagged due to high confidence (80%) exceeding threshold (70%). Looks fine.".
Proof.
  destruct (threshold_forces_flag (H:=Samples.platform) Samples.quiet_result 70)
    as [Hflag Hrec]; [simpl; lia|].
  split; [exact Hflag | exact (Hrec eq_refl eq_refl)].
Defined.

(** C6: with no API credential configured, the router returns exactly what
    the local heuristic scanner returns without the fallback flag, and the
    store is left as it was. *)
Theorem no_credential_local_only `{Platform}
    (emailData : EmailData) (world : World) (st : Store) :
  truthy_opt (st !! "or_api_key") = false →
  analyzeEmail emailData world st = (runLocalBasicScan emailData false, st).
Proof. intros Hkey. by rewrite analyzeEmail_eq, Hkey. Qed.

Lemma no_credential_local_only_witness :
  analyzeEmail (H:=Samples.platform) Samples.three_keyword_mail Samples.offline_world ∅
  = (runLocalBasicScan (H:=Samples.platform) Samples.three_keyword_mail false, ∅).
Proof.
  apply (no_credential_local_only (H:=Samples.platform)). reflexivity.
Defined.

(** The result on that path is not reconciled: the two rules would have
    changed it. *)
Example no_credential_result_unreconciled :
  ∃ r, analyzeEmail (H:=Samples.platform) Samples.one_keyword_mail Samples.offline_world ∅
       = (Returned r, ∅)
       ∧ reconcile (H:=Samples.platform) DEFAULT_THRESHOLD r ≠ r.
Proof. eexists. split; [reflexivity|]. discriminate. Qed.

(** C5: when a credential is configured and the remote scanner fails, for
    whatever reason, the router returns the local heuristic scanner's result
    in fallback mode: no error reaches the caller, the store is left as it
    was, and the recommendation is the local one behind the failure notice. *)
Theorem remote_failure_falls_back `{Platform}
    (emailData : EmailData) (world : World) (st st1 : Store) (b s : string) (err : exn) :
  body emailData = Some b →
  subject emailData = Some s →
  truthy_opt (st !! "or_api_key") = true →
  analyzeEmailWithOpenRouter emailData (read_settings st) world st = (Thrown err, st1) →
  ∃ r r0,
    analyzeEmail emailData world st = (Returned r, st)
    ∧ runLocalBasicScan emailData true = Returned r
    ∧ runLocalBasicScan emailData false = Returned r0
    ∧ recommendation r = FALLBACK_NOTICE +:+ recommendation r0
    ∧ isPhishing r = isPhishing r0
    ∧ confidence r = confidence r0
    ∧ indicators r = indicators r0.
Proof.
  intros Hb Hs Hkey Hremote.
  pose proof (remote_Thrown _ _ _ _ _ _ Hremote) as ->.
  destruct (runLocalBasicScan_total emailData true) as [r Hr]; [by rewrite ?Hb, ?Hs..|].
  destruct (runLocalBasicScan_total emailData false) as [r0 Hr0]; [by rewrite ?Hb, ?Hs..|].
  exists r, r0. rewrite analyzeEmail_eq, Hkey, Hremote.
  split_and!; [by rewrite Hr|done|done|..];
    apply runLocalBasicScan_Returned in Hr as (b1 & s1 & Hb1 & Hs1 & ->);
    apply runLocalBasicScan_Returned in Hr0 as (b2 & s2 & Hb2 & Hs2 & ->);
    simplify_eq; done.
Qed.

Lemma remote_failure_falls_back_witness :
  ∃ r r0,
    analyzeEmail (H:=Samples.platform) Samples.three_keyword_mail Samples.offline_world
      Samples.configured_store = (Returned r, Samples.configured_store)
    ∧ runLocalBasicScan (H:=Samples.platform) Samples.three_keyword_mail true = Returned r
    ∧ runLocalBasicScan (H:=Samples.platform) Samples.three_keyword_mail false = Returned r0
    ∧ recommendation r = FALLBACK_NOTICE +:+ recommendation r0
    ∧ isPhishing r = isPhishing r0
    ∧ confidence r = confidence r0
    ∧ indicators r = indicators r0.
Proof.
  apply (remote_failure_falls_back (H:=Samples.platform) Samples.three_keyword_mail
           Samples.offline_world Samples.configured_store Samples.configured_store
           "Your password expired" "URGENT payment failed" TypeError);
    reflexivity.
Defined.

(** C1, as stated, fails: with no credential configured the router returns
    the local scanner's result, which for an e-mail with one keyword term
    carries an indicator, is not flagged and has confidence 15. *)
Lemma local_result_breaks_indicator_invariant :
  ∃ r st',
    analyzeEmail (H:=Samples.platform) Samples.one_keyword_mail Samples.offline_world ∅
      = (Returned r, st')
    ∧ indicators r ≠ []
    ∧ isPhishing r = false
    ∧ confidence r = 15.
Proof. do 2 eexists. split; [reflexivity|]. done. Qed.

(** C1, amended: a result returned by the router with a non-empty list of
    indicators either comes from the remote scanner, and then it is flagged
    and has confidence at least 50, or it comes from the local heuristic
    scanner, and then it has confidence at least 10 and is flagged exactly
    when its confidence is at least 45. *)
Theorem indicators_invariant_by_origin `{Platform}
    (emailData : EmailData) (world : World) (st st' : Store) (r : AnalysisResult) :
  analyzeEmail emailData world st = (Returned r, st') →
  indicators r ≠ [] →
  (analyzeEmailWithOpenRouter emailData (read_settings st) world st = (Returned r, st')
   ∧ isPhishing r = true ∧ 50 ≤ confidence r)
  ∨ ((∃ isFallback, runLocalBasicScan emailData isFallback = Returned r)
     ∧ st' = st
     ∧ 10 ≤ confidence r
     ∧ isPhishing r = (PHISHING_THRESHOLD <=? confidence r)).
Proof.
  intros Hrun Hind. rewrite analyzeEmail_eq in Hrun.
  destruct (truthy_opt (st !! "or_api_key")).
  - destruct (analyzeEmailWithOpenRouter _ _ _ _) as [[r1|e] st1] eqn:Hremote.
    + injection Hrun as -> ->. left. split; [done|].
      apply remote_Returned in Hremote as [r0 ->].
      rewrite indicators_reconcile in Hind. by apply reconcile_enforces_indicators.
    + apply remote_Thrown in Hremote as ->. injection Hrun as Hlocal ->.
      right. split_and!; [by exists true|done|..];
        by eapply local_indicators_confidence.
  - injection Hrun as Hlocal ->.
    right. split_and!; [by exists false|done|..];
      by eapply local_indicators_confidence.
Qed.

Lemma indicators_invariant_by_origin_witness :
  let r := Samples.reconciled_reply in
  let st' := (analyzeEmail (H:=Samples.answering_platform) Samples.three_keyword_mail
                Samples.answering_world Samples.configured_store).2 in
  (analyzeEmailWithOpenRouter (H:=Samples.answering_platform) Samples.three_keyword_mail
     (read_settings Samples.configured_store) Samples.answering_world
     Samples.configured_store = (Returned r, st')
   ∧ isPhishing r = true ∧ 50 ≤ confidence r)
  ∨ ((∃ isFallback,
        runLocalBasicScan (H:=Samples.answering_platform) Samples.three_keyword_mail isFallback
        = Returned r)
     ∧ st' = Samples.configured_store
     ∧ 10 ≤ confidence r
     ∧ isPhishing r = (PHISHING_THRESHOLD <=? confidence r)).
Proof.
  apply (indicators_invariant_by_origin (H:=Samples.answering_platform)
           Samples.three_keyword_mail Samples.answering_world Samples.configured_store).
  - vm_compute. reflexivity.
  - discriminate.
Defined.

(** A successful remote scan, end to end: the reply is reconciled (rule 1),
    returned, and stored under the key of the message. *)
Example remote_success_run :
  let run := analyzeEmail (H:=Samples.answering_platform) Samples.three_keyword_mail
               Samples.answering_world Samples.configured_store in
  run.1 = Returned Samples.reconciled_reply
  ∧ analysisKeys run.2 = ["analysis_m2"]
  ∧ run.2 !! "analysis_m2" =
      Some (JObj [ ("isPhishing", JBool true); ("confidence", JNum 50);
                   ("indicators", JArr [JStr "Sender domain does not match the brand"]);
                   ("recommendation", JStr "Probably fine."); ("note", JStr "n/a");
                   ("timestamp", JNum 1700000000001);
                   ("emailData", JObj [ ("from", JStr "billing@example.org");
                                        ("subject", JStr "URGENT payment failed") ]);
                   ("settings", JObj [ ("model", DEFAULT_MODEL);
                                       ("threshold", JNum 70) ]) ]).
Proof. vm_compute. done. Qed.

(** ** Retention *)

Section Retention.
Implicit Types (st : Store) (k : string).

Lemma elem_of_Object_keys st k : k ∈ Object_keys st ↔ is_Some (st !! k).
Proof.
  unfold Object_keys. rewrite list_elem_of_fmap. split.
  - intros ([k' v] & -> & Hin). apply elem_of_map_to_list in Hin. by exists v.
  - intros [v Hv]. exists (k, v). split; [done|]. by apply elem_of_map_to_list.
Qed.

Lemma elem_of_analysisKeys st k :
  k ∈ analysisKeys st ↔ is_analysis_key k ∧ is_Some (st !! k).
Proof.
  unfold analysisKeys.
  rewrite elem_of_reverse, merge_sort_Permutation, list_elem_of_filter.
  by rewrite elem_of_Object_keys.
Qed.

Lemma NoDup_analysisKeys st : NoDup (analysisKeys st).
Proof.
  unfold analysisKeys. rewrite reverse_Permutation, merge_sort_Permutation.
  apply NoDup_filter, NoDup_fst_map_to_list.
Qed.

(** The keys come out in descending order. *)
Lemma analysisKeys_sorted st : StronglySorted (flip String.le) (analysisKeys st).
Proof.
  unfold analysisKeys. apply Sorted_StronglySorted; [apply _|].
  apply Sorted_reverse, Sorted_merge_sort; apply _.
Qed.

Lemma lookup_analysis_records st k :
  analysis_records st !! k = if decide (is_analysis_key k) then st !! k else None.
Proof.
  unfold analysis_records. case_decide as Hk.
  - destruct (st !! k) as [v|] eqn:Hv.
    + by apply map_lookup_filter_Some.
    + apply map_lookup_filter_None. left. done.
  - apply map_lookup_filter_None. right. intros v _. done.
Qed.

Lemma length_analysisKeys st : length (analysisKeys st) = size (analysis_records st).
Proof.
  rewrite <- length_map_to_list, <- (length_fmap fst).
  apply Permutation_length, NoDup_Permutation.
  - apply NoDup_analysisKeys.
  - apply NoDup_fst_map_to_list.
  - intros k. fold (Object_keys (analysis_records st)).
    rewrite elem_of_analysisKeys, elem_of_Object_keys, lookup_analysis_records.
    case_decide; [naive_solver|]. split; [naive_solver|]. by intros [? ?].
Qed.

(** What [cleanupOldResults] does to the store, for any number of records:
    the analysis keys beyond the tenth, in descending order, are removed. *)
Lemma cleanupOldResults_eq st :
  cleanupOldResults st = (Returned tt, foldr delete st (drop 10 (analysisKeys st))).
Proof.
  unfold cleanupOldResults, mbind, M_bind, storage_get_all, storage_remove, mret, M_ret.
  simpl. destruct (10 <? length (analysisKeys st))%nat eqn:Hlen; [done|].
  apply Nat.ltb_ge in Hlen. by rewrite drop_ge.
Qed.

Lemma elem_of_take_analysisKeys st k n :
  k ∈ take n (analysisKeys st) ↔ k ∈ analysisKeys st ∧ k ∉ drop n (analysisKeys st).
Proof.
  pose proof (NoDup_analysisKeys st) as Hnd.
  rewrite <- (take_drop n (analysisKeys st)) in Hnd at 1.
  apply NoDup_app in Hnd as (_ & Hdisj & _).
  rewrite <- (take_drop n (analysisKeys st)) at 2. rewrite elem_of_app.
  naive_solver.
Qed.

Lemma survivors st k :
  is_Some (analysis_records (foldr delete st (drop 10 (analysisKeys st))) !! k)
  ↔ k ∈ take 10 (analysisKeys st).
Proof.
  rewrite elem_of_take_analysisKeys, elem_of_analysisKeys, lookup_analysis_records.
  case_decide as Hk.
  - unfold is_Some. setoid_rewrite lookup_foldr_delete_Some. naive_solver.
  - split; [by intros [? ?]|naive_solver].
Qed.
End Retention.

(** C9: on a store with fifteen analysis records the eviction routine leaves
    exactly ten of them, unchanged; every record it leaves has a key
    lexically greater than the key of every record it removes; and every key
    without the analysis prefix keeps its value. *)
Theorem cleanup_keeps_ten_greatest (st : Store) :
  size (analysis_records st) = 15%nat →
  ∃ st',
    cleanupOldResults st = (Returned tt, st')
    ∧ size (analysis_records st') = 10%nat
    ∧ analysis_records st' ⊆ analysis_records st
    ∧ (∀ k k', is_Some (analysis_records st' !! k) →
               is_Some (analysis_records st !! k') →
               analysis_records st' !! k' = None →
               String.le k' k ∧ k' ≠ k)
    ∧ (∀ k, ¬ is_analysis_key k → st' !! k = st !! k).
Proof.
  intros Hsize. rewrite <- length_analysisKeys in Hsize.
  eexists. split; [apply cleanupOldResults_eq|].
  set (L := analysisKeys st) in *. set (st' := foldr delete st (drop 10 L)).
  split_and!.
  - rewrite <- length_map_to_list, <- (length_fmap fst).
    fold (Object_keys (analysis_records st')).
    rewrite (Permutation_length (l' := take 10 L)).
    + rewrite length_take. lia.
    + apply NoDup_Permutation.
      * apply NoDup_fst_map_to_list.
      * pose proof (NoDup_analysisKeys st) as Hnd. fold L in Hnd.
        rewrite <- (take_drop 10 L) in Hnd. by apply NoDup_app in Hnd as (? & _).
      * intros k. rewrite elem_of_Object_keys. apply survivors.
  - apply map_subseteq_spec. intros k v.
    rewrite !lookup_analysis_records. case_decide; [|done].
    intros [_ ?]%lookup_foldr_delete_Some. done.
  - intros k k' Hk Hk' Hgone.
    apply survivors in Hk. fold L in Hk.
    assert (k' ∈ drop 10 L) as Hdropped.
    { rewrite lookup_analysis_records in Hk', Hgone. case_decide as Hp; [|by destruct Hk'].
      destruct (decide (k' ∈ drop 10 L)) as [|Hnot]; [done|].
      unfold st' in Hgone. rewrite lookup_foldr_delete_not_elem_of in Hgone by done.
      rewrite Hgone in Hk'. by destruct Hk'. }
    split.
    + pose proof (analysisKeys_sorted st) as Hs. fold L in Hs.
      rewrite <- (take_drop 10 L) in Hs.
      apply (StronglySorted_app_1_elem_of _ _ _ _ _ Hs Hk Hdropped).
    + intros ->. apply elem_of_take_analysisKeys in Hk as [_ Hk]. done.
  - intros k Hk. apply lookup_foldr_delete_not_elem_of.
    intros Hin%subseteq_drop%elem_of_analysisKeys. naive_solver.
Qed.

Lemma cleanup_keeps_ten_greatest_witness :
  ∃ st',
    cleanupOldResults Samples.full_store = (Returned tt, st')
    ∧ size (analysis_records st') = 10%nat
    ∧ analysis_records st' ⊆ analysis_records Samples.full_store
    ∧ (∀ k k', is_Some (analysis_records st' !! k) →
               is_Some (analysis_records Samples.full_store !! k') →
               analysis_records st' !! k' = None →
               String.le k' k ∧ k' ≠ k)
    ∧ (∀ k, ¬ is_analysis_key k → st' !! k = Samples.full_store !! k).
Proof.
  apply (cleanup_keeps_ten_greatest Samples.full_store). vm_compute. reflexivity.
Defined.

Example cleanup_sample_survivors :
  analysisKeys (cleanupOldResults Samples.full_store).2 =
  [ "analysis_1700000000014"; "analysis_1700000000013"; "analysis_1700000000012";
    "analysis_1700000000011"; "analysis_1700000000010"; "analysis_1700000000009";
    "analysis_1700000000008"; "analysis_1700000000007"; "analysis_1700000000006";
    "analysis_1700000000005" ]
  ∧ (cleanupOldResults Samples.full_store).2 !! "user_threshold" = Some (JNum 60).
Proof. vm_compute. done. Qed.

(** * Further properties *)

(** ** The local heuristic scanner, continued *)

Section LocalVerdict.
Context `{Platform}.

Lemma link_mismatch_not_links_found : LINK_MISMATCH ≠ LINKS_FOUND.
Proof. discriminate. Qed.

Lemma keyword_indicator_not_link_mismatch kw : keyword_indicator kw ≠ LINK_MISMATCH.
Proof. unfold keyword_indicator, LINK_MISMATCH. cbv [String.append]. discriminate. Qed.

Lemma link_mismatch_elem (hits : list string) (generic mismatch : bool) :
  LINK_MISMATCH ∈ map keyword_indicator hits
                    ++ (if generic then [LINKS_FOUND] else [])
                    ++ (if mismatch then [LINK_MISMATCH] else [])
  ↔ mismatch = true.
Proof.
  rewrite !elem_of_app. split.
  - intros [Hin|[Hin|Hin]].
    + apply list_elem_of_fmap in Hin as (kw & Heq & _).
      by destruct (keyword_indicator_not_link_mismatch kw).
    + destruct generic; [|by apply elem_of_nil in Hin].
      apply list_elem_of_singleton in Hin. by destruct link_mismatch_not_links_found.
    + by destruct mismatch; [|apply elem_of_nil in Hin].
  - intros ->. right; right. apply list_elem_of_singleton. done.
Qed.

Lemma includes_empty s : includes s "" = true.
Proof. by destruct s. Qed.

Lemma length_keyword_hits body subject : (length (keyword_hits body subject) ≤ 8)%nat.
Proof. unfold keyword_hits. etrans; [apply length_filter|]. done. Qed.

End LocalVerdict.

(** X1: the verdict of the local scanner in closed form.  An e-mail is
    flagged exactly when it contains three or more keyword terms, or at
    least one keyword term together with a link that fails the domain
    check.  Links alone, whatever they are, never flag an e-mail. *)
Theorem local_verdict `{Platform} (emailData : EmailData) (isFallback : bool)
    (b s : string) :
  body emailData = Some b →
  subject emailData = Some s →
  ∃ r, runLocalBasicScan emailData isFallback = Returned r
    ∧ let hits := length (keyword_hits (toLowerCase b) (toLowerCase s)) in
      let mismatch := has_links (links emailData)
                      && any_mismatch (toLowerCase b) (toLowerCase s) (links emailData) in
      (isPhishing r = true ↔ (3 ≤ hits)%nat ∨ ((1 ≤ hits)%nat ∧ mismatch = true))
      ∧ (hits = 0%nat → confidence r ≤ 40).
Proof.
  intros Hb Hs.
  destruct (runLocalBasicScan_total emailData isFallback) as [r Hr];
    [by rewrite ?Hb, ?Hs..|].
  exists r. split; [done|].
  apply local_result_shape in Hr as (b0 & s0 & Hb0 & Hs0 & Hc & _ & Hp & _).
  simpl in Hc.
  assert (b0 = b) as -> by congruence. assert (s0 = s) as -> by congruence.
  cbv zeta. rewrite Hp, Hc. unfold PHISHING_THRESHOLD.
  set (k := length (keyword_hits _ _)).
  destruct (has_links _), (any_mismatch _ _ _); simpl;
    rewrite ?andb_false_r; simpl;
    repeat match goal with |- context [if ?c then _ else _] => destruct c eqn:? end;
    rewrite Z.leb_le; try rewrite Z.ltb_lt in *; try rewrite Z.ltb_ge in *;
    (split; [split; [intros ?|intros [?|[? ?]]]|intros ?]); try lia; try done.
  all: try (left; lia); try (destruct (decide (3 ≤ k)%nat); [left; lia|right; split; [lia|done]]).
Qed.

Lemma local_verdict_witness :
  ∃ r, runLocalBasicScan (H:=Samples.platform) Samples.three_keyword_mail false = Returned r
       ∧ isPhishing r = true.
Proof.
  destruct (local_verdict (H:=Samples.platform) Samples.three_keyword_mail false
              "Your password expired" "URGENT payment failed" eq_refl eq_refl)
    as (r & Hr & Hverdict & _).
  exists r. split; [exact Hr|]. apply Hverdict. left. vm_compute. lia.
Defined.

(** X2: a link that the URL parser rejects counts as a mismatch.  An e-mail
    with such a link gets the high-risk indicator and a confidence of at
    least 40. *)
Theorem unparseable_link_is_mismatch `{Platform} (emailData : EmailData)
    (isFallback : bool) (b s link : string) (ls : list string) :
  body emailData = Some b →
  subject emailData = Some s →
  links emailData = Some ls →
  link ∈ ls →
  URL_hostname link = None →
  ∃ r, runLocalBasicScan emailData isFallback = Returned r
    ∧ LINK_MISMATCH ∈ indicators r
    ∧ 40 ≤ confidence r.
Proof.
  intros Hb Hs Hls Hin Hurl.
  destruct (runLocalBasicScan_total emailData isFallback) as [r Hr];
    [by rewrite ?Hb, ?Hs..|].
  exists r. split; [done|].
  apply local_result_shape in Hr as (b0 & s0 & Hb0 & Hs0 & Hc & Hi & _).
  simpl in Hc, Hi.
  assert (b0 = b) as -> by congruence. assert (s0 = s) as -> by congruence.
  assert (has_links (links emailData)
          && any_mismatch (toLowerCase b) (toLowerCase s) (links emailData) = true)
    as Hmis.
  { rewrite Hls. destruct ls as [|l ls]; [by apply elem_of_nil in Hin|].
    unfold any_mismatch. simpl has_links. rewrite andb_true_l.
    apply existsb_exists. exists link. split; [by apply list_elem_of_In|].
    unfold link_mismatch. by rewrite Hurl. }
  split.
  - rewrite Hi. by apply link_mismatch_elem.
  - rewrite Hc, Hmis. apply andb_prop in Hmis as [-> _]. rewrite andb_true_l.
    unfold PHISHING_THRESHOLD.
    destruct (Z.ltb_spec (15 * Z.of_nat (length (keyword_hits (toLowerCase b)
                                                   (toLowerCase s)))) 45); lia.
Qed.

Lemma unparseable_link_is_mismatch_witness :
  ∃ r, runLocalBasicScan (H:=Samples.platform)
         (with_links Samples.one_keyword_mail (Some ["see attachment"])) false = Returned r
    ∧ LINK_MISMATCH ∈ indicators r
    ∧ 40 ≤ confidence r.
Proof.
  apply (unparseable_link_is_mismatch (H:=Samples.platform)
           (with_links Samples.one_keyword_mail (Some ["see attachment"])) false
           "please read" "urgent" "see attachment" ["see attachment"]);
    try reflexivity.
  apply list_elem_of_singleton. reflexivity.
Defined.

(** X3: a link whose host name is empty once lower-cased (the parser gives
    one to [mailto:] and [file:] links) never fails the domain check, since
    every string includes the empty string.  An e-mail all of whose links
    are of this kind gets no high-risk indicator. *)
Theorem empty_host_never_mismatches `{Platform} (emailData : EmailData)
    (isFallback : bool) (ls : list string) (r : AnalysisResult) :
  links emailData = Some ls →
  (∀ link, link ∈ ls → ∃ hostname, URL_hostname link = Some hostname
                                   ∧ toLowerCase hostname = "") →
  runLocalBasicScan emailData isFallback = Returned r →
  LINK_MISMATCH ∉ indicators r.
Proof.
  intros Hls Hhosts Hr.
  apply local_result_shape in Hr as (b & s & _ & _ & _ & Hi & _). simpl in Hi.
  rewrite Hi, link_mismatch_elem, Hls. apply not_true_iff_false.
  apply andb_false_intro2. unfold any_mismatch.
  apply not_true_iff_false. intros (link & Hin & Hmis)%existsb_exists.
  apply list_elem_of_In in Hin. destruct (Hhosts link Hin) as (h & Hurl & Hlow).
  unfold link_mismatch in Hmis. rewrite Hurl, Hlow, includes_empty in Hmis. done.
Qed.

Lemma empty_host_never_mismatches_witness :
  LINK_MISMATCH ∉ indicators MoreSamples.mailto_result.
Proof.
  apply (empty_host_never_mismatches (H:=MoreSamples.mailto_platform)
           MoreSamples.mailto_mail false ["mailto:help@example.org"]
           MoreSamples.mailto_result); [reflexivity| |reflexivity].
  intros link ->%list_elem_of_singleton. exists "". split; reflexivity.
Defined.

(** ** The reconciler, continued *)

Section ReconcilerMore.
Context `{Platform}.

Lemma reconcile_output_threshold threshold r :
  num_ge (confidence (reconcile threshold r)) threshold = true →
  isPhishing (reconcile threshold r) = true.
Proof.
  unfold reconcile, apply_threshold, enforce_indicators.
  destruct r as [p c i rec o]. simpl. destruct i as [|x i]; simpl.
  - destruct (num_ge c threshold) eqn:Hge, p; simpl; try done.
    by rewrite Hge.
  - by rewrite andb_false_r.
Qed.

End ReconcilerMore.

(** X4: the results that reconciliation leaves untouched are exactly those
    that already satisfy its two invariants: indicators imply the flag and
    a confidence of at least 50, and a confidence that reaches the threshold
    implies the flag. *)
Theorem reconcile_fixed_points `{Platform} (threshold : JSValue) (r : AnalysisResult) :
  reconcile threshold r = r ↔
  (indicators r ≠ [] → isPhishing r = true ∧ 50 ≤ confidence r)
  ∧ (num_ge (confidence r) threshold = true → isPhishing r = true).
Proof.
  unfold reconcile, apply_threshold, enforce_indicators.
  destruct r as [p c i rec o]. simpl. destruct i as [|x i]; simpl.
  - destruct (num_ge c threshold) eqn:Hge, p; simpl;
      (split; [intros Heq|intros [_ Hflag]]); try done;
      try (by split); by specialize (Hflag eq_refl).
  - rewrite andb_false_r. split.
    + intros [= -> Hmax]. split; [|done]. intros _. split; [done|lia].
    + intros [Hind _]. destruct Hind as [-> Hc]; [done|]. f_equal. lia.
Qed.

(** X5: reconciliation only ever raises.  It never lowers the confidence,
    never clears the flag, leaves the indicators and the further properties
    of the result as they are, and rewrites the recommendation of no result
    that was already flagged. *)
Theorem reconcile_only_raises `{Platform} (threshold : JSValue) (r : AnalysisResult) :
  confidence r ≤ confidence (reconcile threshold r)
  ∧ (isPhishing r = true → isPhishing (reconcile threshold r) = true)
  ∧ indicators (reconcile threshold r) = indicators r
  ∧ others (reconcile threshold r) = others r
  ∧ (isPhishing r = true → recommendation (reconcile threshold r) = recommendation r)
  ∧ (indicators r ≠ [] → recommendation (reconcile threshold r) = recommendation r).
Proof.
  unfold reconcile, apply_threshold, enforce_indicators.
  destruct r as [p c i rec o]. simpl. destruct i as [|x i]; simpl.
  - destruct (num_ge c threshold), p; simpl; split_and!; done || lia.
  - rewrite andb_false_r. simpl. split_and!; done || lia.
Qed.

(** ** The remote scanner, continued *)

Section RemoteMore.
Context `{Platform}.

Lemma assoc_set_field_eq name value fields :
  assoc name (set_field name value fields) = Some value.
Proof.
  induction fields as [|[k v] fields IH]; simpl.
  - by rewrite String.eqb_refl.
  - destruct (String.eqb k name) eqn:Hk; simpl; by rewrite Hk.
Qed.

Lemma assoc_set_field_ne name name' value fields :
  name ≠ name' →
  assoc name' (set_field name value fields) = assoc name' fields.
Proof.
  intros Hne. induction fields as [|[k v] fields IH]; simpl.
  - by destruct (String.eqb_spec name name').
  - destruct (String.eqb_spec k name) as [->|]; simpl.
    + by destruct (String.eqb_spec name name').
    + by rewrite IH.
Qed.

Lemma analysis_key_prefix emailData now : is_analysis_key (analysis_key emailData now).
Proof.
  unfold is_analysis_key, analysis_key.
  generalize (match emailId emailData with
              | Some id => if String.eqb id "" then pretty now else id
              | None => pretty now
              end).
  intros x. by destruct x.
Qed.

(** What a successful remote scan went through, and what it wrote. *)
Lemma remote_Returned_inv emailData settings world st r st' :
  analyzeEmailWithOpenRouter emailData settings world st = (Returned r, st') →
  ∃ parts status json r0,
    truthy_opt (or_api_key settings) = true
    ∧ prompt_parts emailData = Returned parts
    ∧ fetch world (request_of emailData settings parts) = FetchResponse true status json
    ∧ read_reply json = Returned r0
    ∧ r = reconcile (or_else (user_threshold settings) DEFAULT_THRESHOLD) r0
    ∧ st' = <[analysis_key emailData (now_key world) :=
                stored_record emailData r
                  (or_else (or_model settings) DEFAULT_MODEL)
                  (or_else (user_threshold settings) DEFAULT_THRESHOLD)
                  (now_stamp world)]> st.
Proof.
  unfold analyzeEmailWithOpenRouter, mbind, M_bind, throw, lift, storage_set, mret, M_ret.
  destruct (truthy_opt (or_api_key settings)) eqn:Hkey; simpl; [|done].
  destruct (prompt_parts emailData) as [parts|] eqn:Hparts; [|done].
  fold (request_of emailData settings parts).
  destruct (fetch world (request_of emailData settings parts))
    as [e|[] status json] eqn:Hfetch; [done| |].
  - destruct (read_reply json) as [r0|] eqn:Hreply; [|done].
    intros [= <- <-]. by exists parts, status, json, r0.
  - destruct (http_error_throws status json) as [e ->]. done.
Qed.

Lemma read_reply_Returned json r0 :
  read_reply json = Returned r0 →
  ∃ data choices first content span parsed,
    json = Some data
    ∧ get_prop data "choices" = Returned choices
    ∧ get_index0 choices = Returned first
    ∧ get_prop_opt (get_prop_opt first "message") "content" = Some (JStr content)
    ∧ content ≠ ""
    ∧ find_object_span content = Some span
    ∧ JSON_parse span = Some parsed
    ∧ validate parsed = Returned r0.
Proof.
  unfold read_reply. destruct json as [data|]; [|done].
  destruct (get_prop data "choices") as [choices|] eqn:Hc; simpl; [|done].
  destruct (get_index0 choices) as [first|] eqn:Hf; simpl; [|done].
  destruct (get_prop_opt (get_prop_opt first "message") "content")
    as [[| | |content| |]|] eqn:Hcontent; simpl; try done;
    try (by destruct (negb _)).
  destruct (String.eqb_spec content "") as [->|Hne]; simpl; [done|].
  destruct (find_object_span content) as [span|] eqn:Hspan; [|done].
  destruct (JSON_parse span) as [parsed|] eqn:Hparse; [|done].
  intros Hv. by exists data, choices, first, content, span, parsed.
Qed.

End RemoteMore.

(** X6: reading back what was written.  The object made of the own
    properties of a result passes the structure check and validates to that
    same result, provided its further properties do not reuse one of the
    four validated names. *)
Theorem validate_result_fields (r : AnalysisResult) :
  Forall (λ f, f.1 ∉ ["isPhishing"; "confidence"; "indicators"; "recommendation"])
         (others r) →
  validate (JObj (result_fields r)) = Returned r.
Proof.
  intros Hothers. destruct r as [p c i rec o]. unfold validate, result_fields.
  simpl in *. f_equal. f_equal.
  rewrite !filter_cons_False by (simpl; intros Hnot; apply Hnot; set_solver).
  clear -Hothers. induction Hothers as [|f o Hf _ IH]; [done|].
  rewrite filter_cons_True by done. by rewrite IH.
Qed.

Lemma validate_result_fields_witness :
  validate (JObj (result_fields Samples.reconciled_reply)) = Returned Samples.reconciled_reply.
Proof.
  apply (validate_result_fields Samples.reconciled_reply).
  repeat constructor. simpl. set_solver.
Defined.

(** X7: what a successful remote scan persists is what it returns.  The
    store gains one record, under the key made of the analysis prefix and
    the message id (or the clock when there is none); the four fields of the
    record are those of the returned result, its timestamp is the clock's;
    and no other key of the store changes. *)
Theorem remote_success_persists_result `{Platform} (emailData : EmailData)
    (settings : Settings) (world : World) (st st' : Store) (r : AnalysisResult) :
  analyzeEmailWithOpenRouter emailData settings world st = (Returned r, st') →
  let key := analysis_key emailData (now_key world) in
  is_analysis_key key
  ∧ (∃ record,
       st' !! key = Some record
       ∧ get_prop record "isPhishing" = Returned (Some (JBool (isPhishing r)))
       ∧ get_prop record "confidence" = Returned (Some (JNum (confidence r)))
       ∧ get_prop record "indicators" = Returned (Some (JArr (indicators r)))
       ∧ get_prop record "recommendation" = Returned (Some (JStr (recommendation r)))
       ∧ get_prop record "timestamp" = Returned (Some (JNum (now_stamp world))))
  ∧ (∀ k, k ≠ key → st' !! k = st !! k).
Proof.
  intros (parts & status & json & r0 & _ & _ & _ & _ & _ & ->)%remote_Returned_inv.
  cbv zeta. split_and!.
  - apply analysis_key_prefix.
  - eexists. split; [apply lookup_insert_eq|].
    unfold stored_record, get_prop.
    rewrite !assoc_set_field_ne by done.
    split_and!; try done.
    by rewrite assoc_set_field_eq.
  - intros k Hk. by rewrite lookup_insert_ne.
Qed.

Lemma remote_success_persists_result_witness :
  let run := analyzeEmailWithOpenRouter (H:=Samples.answering_platform)
               Samples.three_keyword_mail (read_settings Samples.configured_store)
               Samples.answering_world Samples.configured_store in
  is_analysis_key "analysis_m2"
  ∧ (∃ record,
       run.2 !! "analysis_m2" = Some record
       ∧ get_prop record "isPhishing" = Returned (Some (JBool true))
       ∧ get_prop record "confidence" = Returned (Some (JNum 50))
       ∧ get_prop record "indicators"
         = Returned (Some (JArr [JStr "Sender domain does not match the brand"]))
       ∧ get_prop record "recommendation" = Returned (Some (JStr "Probably fine."))
       ∧ get_prop record "timestamp" = Returned (Some (JNum 1700000000001)))
  ∧ (∀ k, k ≠ "analysis_m2" → run.2 !! k = Samples.configured_store !! k).
Proof.
  apply (remote_success_persists_result (H:=Samples.answering_platform)
           Samples.three_keyword_mail (read_settings Samples.configured_store)
           Samples.answering_world Samples.configured_store _ Samples.reconciled_reply).
  vm_compute. reflexivity.
Defined.

(** X8: the remote scanner returns a result only for a reply of the expected
    shape: a response with a success status whose body has a non-empty
    string at [choices[0].message.content], in which an object is found,
    parses and passes the structure check; the result is that object
    reconciled.  Everything else is a failure. *)
Theorem remote_returns_only_valid_reply `{Platform} (emailData : EmailData)
    (settings : Settings) (world : World) (st st' : Store) (r : AnalysisResult) :
  analyzeEmailWithOpenRouter emailData settings world st = (Returned r, st') →
  ∃ parts status data choices first content span parsed r0,
    prompt_parts emailData = Returned parts
    ∧ fetch world (request_of emailData settings parts)
      = FetchResponse true status (Some data)
    ∧ get_prop data "choices" = Returned choices
    ∧ get_index0 choices = Returned first
    ∧ get_prop_opt (get_prop_opt first "message") "content" = Some (JStr content)
    ∧ content ≠ ""
    ∧ find_object_span content = Some span
    ∧ JSON_parse span = Some parsed
    ∧ validate parsed = Returned r0
    ∧ r = reconcile (or_else (user_threshold settings) DEFAULT_THRESHOLD) r0.
Proof.
  intros (parts & status & json & r0 & _ & Hparts & Hfetch & Hreply & -> & _)%remote_Returned_inv.
  apply read_reply_Returned in Hreply
    as (data & choices & first & content & span & parsed & -> & ?).
  exists parts, status, data, choices, first, content, span, parsed, r0.
  naive_solver.
Qed.

Lemma remote_returns_only_valid_reply_witness :
  ∃ parts status data choices first content span parsed r0,
    prompt_parts Samples.three_keyword_mail = Returned parts
    ∧ fetch Samples.answering_world
        (request_of Samples.three_keyword_mail (read_settings Samples.configured_store) parts)
      = FetchResponse true status (Some data)
    ∧ get_prop data "choices" = Returned choices
    ∧ get_index0 choices = Returned first
    ∧ get_prop_opt (get_prop_opt first "message") "content" = Some (JStr content)
    ∧ content ≠ ""
    ∧ find_object_span (Platform:=Samples.answering_platform) content = Some span
    ∧ JSON_parse (Platform:=Samples.answering_platform) span = Some parsed
    ∧ validate parsed = Returned r0
    ∧ Samples.reconciled_reply
      = reconcile (H:=Samples.answering_platform)
          (or_else (user_threshold (read_settings Samples.configured_store))
             DEFAULT_THRESHOLD) r0.
Proof.
  apply (remote_returns_only_valid_reply (H:=Samples.answering_platform)
           Samples.three_keyword_mail (read_settings Samples.configured_store)
           Samples.answering_world Samples.configured_store
           (analyzeEmailWithOpenRouter (H:=Samples.answering_platform)
              Samples.three_keyword_mail (read_settings Samples.configured_store)
              Samples.answering_world Samples.configured_store).2).
  vm_compute. reflexivity.
Defined.

(** X9: every result of the remote scanner respects the threshold in force,
    which is the stored threshold when that is a number other than 0 and 70
    when none is stored or 0 is stored: a result whose confidence reaches it
    is flagged. *)
Theorem remote_result_respects_threshold `{Platform} (emailData : EmailData)
    (settings : Settings) (world : World) (st st' : Store) (r : AnalysisResult) :
  analyzeEmailWithOpenRouter emailData settings world st = (Returned r, st') →
  (∀ t, user_threshold settings = Some (JNum t) → t ≠ 0 →
        t ≤ confidence r → isPhishing r = true)
  ∧ (user_threshold settings = None ∨ user_threshold settings = Some (JNum 0) →
     70 ≤ confidence r → isPhishing r = true).
Proof.
  intros (r0 & ->)%remote_Returned. split.
  - intros t Ht Hnz Hge. rewrite Ht, threshold_of_settings by done.
    rewrite Ht, threshold_of_settings in Hge by done.
    apply reconcile_output_threshold. unfold num_ge. simpl. by apply Z.leb_le.
  - intros Hnone Hge.
    assert (or_else (user_threshold settings) DEFAULT_THRESHOLD = JNum 70) as Hthr
      by (by destruct Hnone as [-> | ->]).
    rewrite Hthr in Hge |- *.
    apply reconcile_output_threshold. unfold num_ge. simpl. by apply Z.leb_le.
Qed.

Lemma remote_result_respects_threshold_witness :
  (∀ t, user_threshold (read_settings Samples.configured_store) = Some (JNum t) → t ≠ 0 →
        t ≤ confidence Samples.reconciled_reply → isPhishing Samples.reconciled_reply = true)
  ∧ (user_threshold (read_settings Samples.configured_store) = None
     ∨ user_threshold (read_settings Samples.configured_store) = Some (JNum 0) →
     70 ≤ confidence Samples.reconciled_reply → isPhishing Samples.reconciled_reply = true).
Proof.
  apply (remote_result_respects_threshold (H:=Samples.answering_platform)
           Samples.three_keyword_mail (read_settings Samples.configured_store)
           Samples.answering_world Samples.configured_store
           (analyzeEmailWithOpenRouter (H:=Samples.answering_platform)
              Samples.three_keyword_mail (read_settings Samples.configured_store)
              Samples.answering_world Samples.configured_store).2).
  vm_compute. reflexivity.
Defined.

(** X10: the error of a response without success status.  Its message is
    the [error.message] of the response body when that is a non-empty
    string, and names the status when the body is not JSON or is an object
    without an [error]. *)
Theorem http_error_message (status : Z) (fields efields : list (string * JSValue))
    (m : string) :
  assoc "error" fields = Some (JObj efields) →
  assoc "message" efields = Some (JStr m) →
  m ≠ "" →
  http_error (A:=AnalysisResult) status (Some (JObj fields)) = Thrown (Error m)
  ∧ http_error (A:=AnalysisResult) status None
    = Thrown (Error ("API request failed: " +:+ pretty status))
  ∧ (∀ fields', assoc "error" fields' = None →
       http_error (A:=AnalysisResult) status (Some (JObj fields'))
       = Thrown (Error ("API request failed: " +:+ pretty status))).
Proof.
  intros Herr Hmsg Hm. unfold http_error. simpl. split_and!.
  - rewrite Herr. simpl. rewrite Hmsg. simpl.
    by destruct (String.eqb_spec m "").
  - done.
  - intros fields' ->. done.
Qed.

Lemma http_error_message_witness :
  http_error (A:=AnalysisResult) 429
    (Some (JObj [("error", JObj [("message", JStr "Rate limit exceeded")])]))
  = Thrown (Error "Rate limit exceeded")
  ∧ http_error (A:=AnalysisResult) 429 None = Thrown (Error "API request failed: 429").
Proof.
  destruct (http_error_message 429
              [("error", JObj [("message", JStr "Rate limit exceeded")])]
              [("message", JStr "Rate limit exceeded")] "Rate limit exceeded"
              eq_refl eq_refl) as (Hbody & Hnone & _); [discriminate|].
  split; [exact Hbody | exact Hnone].
Defined.

(** X11: one record per message.  A successful remote scan adds one record
    to the store when the key of the message is new, and replaces the record
    of an earlier scan of the same message otherwise. *)
Theorem remote_success_record_count `{Platform} (emailData : EmailData)
    (settings : Settings) (world : World) (st st' : Store) (r : AnalysisResult) :
  analyzeEmailWithOpenRouter emailData settings world st = (Returned r, st') →
  size st' = match st !! analysis_key emailData (now_key world) with
             | Some _ => size st
             | None => S (size st)
             end.
Proof.
  intros (parts & status & json & r0 & _ & _ & _ & _ & _ & ->)%remote_Returned_inv.
  destruct (st !! analysis_key emailData (now_key world)) eqn:Hkey.
  - by apply map_size_insert_Some.
  - by apply map_size_insert_None.
Qed.

Lemma remote_success_record_count_witness :
  size (analyzeEmailWithOpenRouter (H:=Samples.answering_platform)
          Samples.three_keyword_mail (read_settings Samples.configured_store)
          Samples.answering_world Samples.configured_store).2
  = match Samples.configured_store !! analysis_key Samples.three_keyword_mail
                                      (now_key Samples.answering_world) with
    | Some _ => size Samples.configured_store
    | None => S (size Samples.configured_store)
    end.
Proof.
  apply (remote_success_record_count (H:=Samples.answering_platform)
           Samples.three_keyword_mail (read_settings Samples.configured_store)
           Samples.answering_world Samples.configured_store _ Samples.reconciled_reply).
  vm_compute. reflexivity.
Defined.

(** ** The router and the message listener *)

Section RouterMore.
Context `{Platform}.

Lemma analyzeEmail_returns emailData world st :
  is_Some (body emailData) → is_Some (subject emailData) →
  ∃ r st', analyzeEmail emailData world st = (Returned r, st').
Proof.
  intros Hb Hs. rewrite analyzeEmail_eq.
  destruct (runLocalBasicScan_total emailData true Hb Hs) as [r1 Hr1].
  destruct (runLocalBasicScan_total emailData false Hb Hs) as [r2 Hr2].
  destruct (truthy_opt _); [|rewrite Hr2; eauto].
  destruct (analyzeEmailWithOpenRouter _ _ _ _) as [[r|e] st']; [eauto|].
  rewrite Hr1. eauto.
Qed.

Lemma analyzeEmail_Thrown emailData world st e st' :
  analyzeEmail emailData world st = (Thrown e, st') →
  (body emailData = None ∨ subject emailData = None) ∧ st' = st ∧ e = TypeError.
Proof.
  rewrite analyzeEmail_eq. intros Hrun.
  assert (∀ fb, runLocalBasicScan emailData fb = Thrown e →
                (body emailData = None ∨ subject emailData = None) ∧ e = TypeError)
    as Hlocal.
  { intros fb Hfb. split; [by eapply runLocalBasicScan_Thrown|].
    unfold runLocalBasicScan in Hfb.
    destruct (body emailData), (subject emailData); simpl in Hfb; congruence. }
  destruct (truthy_opt _).
  - destruct (analyzeEmailWithOpenRouter _ _ _ _) as [[r|e'] st1] eqn:Hremote; [done|].
    apply remote_Thrown in Hremote as ->. injection Hrun as Hfb ->.
    destruct (Hlocal _ Hfb). done.
  - injection Hrun as Hfb ->. destruct (Hlocal _ Hfb). done.
Qed.

End RouterMore.

(** X12: the reply of the message listener to an [analyzeEmail] request
    that carries a typed e-mail, one whose [from], [subject], [body] and
    [emailId] are each absent or a string and whose [links] are absent or an
    array of strings ([EmailData]).  The channel is kept open and exactly
    one reply is sent.  A typed e-mail with a body and a subject always gets
    a success reply, whatever the store holds and whatever the service
    does.  A typed e-mail gets a failure reply only when its body or its
    subject is absent; the reply carries the engine's text for the TypeError
    and the store is then left as it was. *)
Theorem listener_reply `{Platform} (engine_message : exn → string)
    (emailData : EmailData) (world : World) (st : Store) :
  let handled := onMessage engine_message (MsgAnalyzeEmail emailData) world st in
  keep_open handled.1 = true
  ∧ notification handled.1 = None
  ∧ match reply handled.1 with
    | Some (ReplySuccess r) => analyzeEmail emailData world st = (Returned r, handled.2)
    | Some (ReplyFailure error) =>
        (body emailData = None ∨ subject emailData = None)
        ∧ handled.2 = st
        ∧ error = engine_message TypeError
    | None => False
    end
  ∧ (is_Some (body emailData) → is_Some (subject emailData) →
     ∃ r, reply handled.1 = Some (ReplySuccess r)).
Proof.
  cbv zeta. unfold onMessage.
  destruct (analyzeEmail emailData world st) as [[r|e] st'] eqn:Hrun; simpl.
  - split_and!; eauto.
  - apply analyzeEmail_Thrown in Hrun as (Habsent & -> & ->).
    split_and!; try done.
    intros [b Hb] [s Hs]. destruct Habsent; congruence.
Qed.

(** X13: an analysis changes the store at one key at most, the key of the
    analysed message.  The settings, and the records of other messages, are
    never altered or removed by [analyzeEmail]. *)
Theorem analyzeEmail_store_frame `{Platform} (emailData : EmailData) (world : World)
    (st : Store) (k : string) :
  k ≠ analysis_key emailData (now_key world) →
  (analyzeEmail emailData world st).2 !! k = st !! k.
Proof.
  intros Hk. rewrite analyzeEmail_eq.
  destruct (truthy_opt _); [|done].
  destruct (analyzeEmailWithOpenRouter _ _ _ _) as [[r|e] st'] eqn:Hremote; simpl.
  - apply remote_Returned_inv in Hremote
      as (parts & status & json & r0 & _ & _ & _ & _ & _ & ->).
    by rewrite lookup_insert_ne.
  - by apply remote_Thrown in Hremote as ->.
Qed.

Lemma analyzeEmail_store_frame_witness :
  (analyzeEmail (H:=Samples.answering_platform) Samples.three_keyword_mail
     Samples.answering_world Samples.configured_store).2 !! "or_api_key"
  = Samples.configured_store !! "or_api_key".
Proof.
  apply (analyzeEmail_store_frame (H:=Samples.answering_platform)
           Samples.three_keyword_mail Samples.answering_world
           Samples.configured_store "or_api_key").
  discriminate.
Defined.

(** ** The popup: settings *)

Section Settings.
Context `{PopupHost}.

Lemma prefix_nonempty k : String.prefix "sk-or-" k = true → String.eqb k "" = false.
Proof. by destruct k. Qed.

Lemma analysis_key_not_setting k :
  is_analysis_key k →
  k ∉ ["or_api_key"; "or_endpoint"; "or_model"; "user_threshold"].
Proof.
  unfold is_analysis_key. intros Hk Hin.
  repeat (apply elem_of_cons in Hin as [->|Hin]; [done|]).
  by apply elem_of_nil in Hin.
Qed.

Lemma clamp_threshold_range value : 1 ≤ clamp_threshold value ≤ 100.
Proof. unfold clamp_threshold. lia. Qed.

(** The store after an accepted [saveSettings]. *)
Lemma saveSettings_accepted form st :
  String.prefix "sk-or-" (trim (apiKeyEl form)) = true →
  (saveSettings form st).2 =
  <["user_threshold" := JNum (clamp_threshold (thresholdEl form))]>
    (<["or_model" := JStr (trim (modelEl form))]>
       (<["or_endpoint" := JStr (trim (endpointEl form))]>
          (<["or_api_key" := JStr (trim (apiKeyEl form))]> st))).
Proof.
  intros Hk. unfold saveSettings. rewrite (prefix_nonempty _ Hk), Hk. done.
Qed.

Lemma saveSettings_rejected form st :
  String.prefix "sk-or-" (trim (apiKeyEl form)) = false →
  (saveSettings form st).2 = st.
Proof.
  intros Hk. unfold saveSettings. rewrite Hk.
  by destruct (String.eqb _ "").
Qed.

(** What an accepted [saveSettings] leaves under each key. *)
Lemma saveSettings_lookups form st :
  String.prefix "sk-or-" (trim (apiKeyEl form)) = true →
  let st' := (saveSettings form st).2 in
  st' !! "or_api_key" = Some (JStr (trim (apiKeyEl form)))
  ∧ st' !! "or_endpoint" = Some (JStr (trim (endpointEl form)))
  ∧ st' !! "or_model" = Some (JStr (trim (modelEl form)))
  ∧ st' !! "user_threshold" = Some (JNum (clamp_threshold (thresholdEl form)))
  ∧ (∀ k, k ∉ ["or_api_key"; "or_endpoint"; "or_model"; "user_threshold"] →
          st' !! k = st !! k).
Proof.
  intros Hk. cbv zeta. rewrite saveSettings_accepted by done. split_and!.
  - do 3 (rewrite lookup_insert_ne by done). apply lookup_insert_eq.
  - do 2 (rewrite lookup_insert_ne by done). apply lookup_insert_eq.
  - rewrite lookup_insert_ne by done. apply lookup_insert_eq.
  - apply lookup_insert_eq.
  - intros k Hk'. do 4 (rewrite lookup_insert_ne by set_solver). done.
Qed.

End Settings.

(** X14: [saveSettings] guards the store.  Unless the trimmed key starts
    with [sk-or-], nothing is written.  When it does, the four settings are
    written: the trimmed key, endpoint and model, and a threshold that is a
    number between 1 and 100 whatever the threshold field holds; every other
    key of the store keeps its value. *)
Theorem saveSettings_guards_store `{PopupHost} (form : Form) (st : Store) :
  let st' := (saveSettings form st).2 in
  if String.prefix "sk-or-" (trim (apiKeyEl form))
  then st' !! "or_api_key" = Some (JStr (trim (apiKeyEl form)))
       ∧ st' !! "or_endpoint" = Some (JStr (trim (endpointEl form)))
       ∧ st' !! "or_model" = Some (JStr (trim (modelEl form)))
       ∧ (∃ t, st' !! "user_threshold" = Some (JNum t) ∧ 1 ≤ t ≤ 100)
       ∧ (∀ k, k ∉ ["or_api_key"; "or_endpoint"; "or_model"; "user_threshold"] →
               st' !! k = st !! k)
  else st' = st.
Proof.
  cbv zeta. destruct (String.prefix _ _) eqn:Hk.
  - destruct (saveSettings_lookups form st Hk) as (Hkey & He & Hm & Ht & Hframe).
    split_and!; try done.
    eexists. split; [exact Ht|apply clamp_threshold_range].
  - by apply saveSettings_rejected.
Qed.

(** X15: saved settings take effect.  After an accepted [saveSettings] the
    router no longer answers from the local scanner alone: it attempts the
    remote scan.  The threshold in force is the saved one, never the
    default, and an endpoint or model field left empty falls back to the
    default endpoint or model. *)
Theorem saved_settings_take_effect `{Platform} `{PopupHost} (form : Form) (st : Store) :
  String.prefix "sk-or-" (trim (apiKeyEl form)) = true →
  let st' := (saveSettings form st).2 in
  let settings := read_settings st' in
  (∀ emailData world,
     analyzeEmail emailData world st' =
     match analyzeEmailWithOpenRouter emailData settings world st' with
     | (Returned r, st'') => (Returned r, st'')
     | (Thrown _, st'') => (runLocalBasicScan emailData true, st'')
     end)
  ∧ or_else (user_threshold settings) DEFAULT_THRESHOLD
    = JNum (clamp_threshold (thresholdEl form))
  ∧ or_else (or_endpoint settings) DEFAULT_ENDPOINT
    = (if String.eqb (trim (endpointEl form)) "" then DEFAULT_ENDPOINT
       else JStr (trim (endpointEl form)))
  ∧ or_else (or_model settings) DEFAULT_MODEL
    = (if String.eqb (trim (modelEl form)) "" then DEFAULT_MODEL
       else JStr (trim (modelEl form))).
Proof.
  intros Hk. cbv zeta. unfold read_settings. simpl.
  destruct (saveSettings_lookups form st Hk) as (Hkey & He & Hm & Ht & _).
  split_and!.
  - intros emailData world. rewrite analyzeEmail_eq, Hkey. simpl.
    rewrite (prefix_nonempty _ Hk). simpl. unfold read_settings. by rewrite Hkey.
  - rewrite Ht. apply threshold_of_settings.
    pose proof (clamp_threshold_range (thresholdEl form)). lia.
  - rewrite He. unfold or_else. simpl. by destruct (String.eqb _ "").
  - rewrite Hm. unfold or_else. simpl. by destruct (String.eqb _ "").
Qed.

Lemma saved_settings_take_effect_witness :
  or_else (user_threshold (read_settings
             (saveSettings (H:=TestHost.host) MoreSamples.settings_form ∅).2))
    DEFAULT_THRESHOLD = JNum 100
  ∧ or_else (or_endpoint (read_settings
               (saveSettings (H:=TestHost.host) MoreSamples.settings_form ∅).2))
      DEFAULT_ENDPOINT = DEFAULT_ENDPOINT.
Proof.
  destruct (saved_settings_take_effect (H:=Samples.platform) (H0:=TestHost.host)
              MoreSamples.settings_form ∅ eq_refl) as (_ & Hthreshold & Hendpoint & _).
  split; [exact Hthreshold | exact Hendpoint].
Defined.

(** X16: the settings round trip.  After an accepted [saveSettings], what
    [init] puts back into the form is the trimmed key, the saved threshold
    in decimal, and the trimmed endpoint and model, or their defaults where
    the field was left empty. *)
Theorem settings_round_trip `{PopupHost} (form : Form) (st : Store) :
  String.prefix "sk-or-" (trim (apiKeyEl form)) = true →
  populate_form (read_settings (saveSettings form st).2) =
  ("apiKey.value", trim (apiKeyEl form))
  :: showStatus "key-status" "API key configured" "success"
  ++ [ ("endpoint.value",
        if String.eqb (trim (endpointEl form)) ""
        then "https://openrouter.ai/api/v1/chat/completions"
        else trim (endpointEl form));
       ("model.value",
        if String.eqb (trim (modelEl form)) ""
        then "meta-llama/llama-3.2-3b-instruct:free"
        else trim (modelEl form));
       ("threshold.value", pretty (clamp_threshold (thresholdEl form))) ].
Proof.
  intros Hk. unfold populate_form, read_settings. simpl.
  destruct (saveSettings_lookups form st Hk) as (-> & -> & -> & -> & _).
  rewrite threshold_of_settings
    by (pose proof (clamp_threshold_range (thresholdEl form)); lia).
  simpl. rewrite (prefix_nonempty _ Hk). simpl. unfold or_else. simpl.
  by destruct (String.eqb (trim (endpointEl form)) ""),
              (String.eqb (trim (modelEl form)) "").
Qed.

Lemma settings_round_trip_witness :
  populate_form (read_settings (saveSettings (H:=TestHost.host)
                                  MoreSamples.settings_form ∅).2) =
  [ ("apiKey.value", "sk-or-v1-test");
    ("key-status.textContent", "API key configured");
    ("key-status.className", "status-message show success");
    ("endpoint.value", "https://openrouter.ai/api/v1/chat/completions");
    ("model.value", "some/model");
    ("threshold.value", "100") ].
Proof.
  apply (settings_round_trip (H:=TestHost.host) MoreSamples.settings_form ∅).
  reflexivity.
Defined.

(** X17: the settings actions of the popup keep the stored analyses.
    Neither [saveSettings] nor [clearApiKey] adds, removes or changes a
    record under an analysis key. *)
Theorem settings_actions_keep_analyses `{PopupHost} (form : Form) (st : Store) :
  analysis_records (saveSettings form st).2 = analysis_records st
  ∧ analysis_records (clearApiKey st).2 = analysis_records st.
Proof.
  split; apply map_eq; intros k; rewrite !lookup_analysis_records;
    case_decide as Hk; try done; apply analysis_key_not_setting in Hk.
  - destruct (String.prefix "sk-or-" (trim (apiKeyEl form))) eqn:Hprefix.
    + destruct (saveSettings_lookups form st Hprefix) as (_ & _ & _ & _ & Hframe).
      by apply Hframe.
    + by rewrite saveSettings_rejected.
  - unfold clearApiKey, mbind, M_bind, storage_remove, mret, M_ret. simpl.
    apply lookup_delete_ne. set_solver.
Qed.

(** X18: clearing the key switches the remote scan off and nothing else.
    After [clearApiKey] the store is the old one without [or_api_key], and
    every analysis is answered by the local scanner, without fallback
    notice and without a write. *)
Theorem clearApiKey_disables_remote `{Platform} (st : Store)
    (emailData : EmailData) (world : World) :
  let st' := (clearApiKey st).2 in
  st' = delete "or_api_key" st
  ∧ analyzeEmail emailData world st' = (runLocalBasicScan emailData false, st').
Proof.
  cbv zeta. split; [done|].
  rewrite analyzeEmail_eq.
  unfold clearApiKey, mbind, M_bind, storage_remove, mret, M_ret. simpl.
  by rewrite lookup_delete_eq.
Qed.

(** ** The popup: the latest result and retention *)

Section Latest.
Implicit Types (st : Store) (k : string).

Lemma analysisKeys_storedAnalysisKeys st :
  analysisKeys st = reverse (merge_sort String.le (storedAnalysisKeys st)).
Proof. done. Qed.

Lemma latestKey_head st : latestKey st = head (analysisKeys st).
Proof. unfold latestKey, analysisKeys. by rewrite head_reverse. Qed.

Lemma storedAnalysisKeys_nil st :
  storedAnalysisKeys st = [] ↔ analysis_records st = ∅.
Proof.
  rewrite <- map_size_empty_iff, <- length_analysisKeys, analysisKeys_storedAnalysisKeys.
  rewrite length_reverse, merge_sort_Permutation. symmetry. apply length_zero_iff_nil.
Qed.

Lemma analysisKeys_nil st : analysisKeys st = [] ↔ analysis_records st = ∅.
Proof.
  rewrite <- map_size_empty_iff, <- length_analysisKeys. symmetry.
  apply length_zero_iff_nil.
Qed.

(** The head of a list in descending order is its greatest element. *)
Lemma head_analysisKeys_greatest st k k' :
  head (analysisKeys st) = Some k → k' ∈ analysisKeys st → String.le k' k.
Proof.
  pose proof (analysisKeys_sorted st) as Hsorted.
  destruct (analysisKeys st) as [|k0 l]; [done|]. intros [= ->] Hin.
  apply elem_of_cons in Hin as [->|Hin]; [done|].
  apply StronglySorted_inv in Hsorted as [_ Hall].
  rewrite Forall_forall in Hall. by apply Hall.
Qed.

#[local] Instance flip_le_antisymm : AntiSymm (=) (flip String.le).
Proof. intros x y Hxy Hyx. by apply (anti_symm String.le). Qed.

(** The analysis keys of a store after [cleanupOldResults], in the order of
    [analysisKeys]. *)
Lemma analysisKeys_cleanup st :
  analysisKeys (cleanupOldResults st).2 = take 10 (analysisKeys st).
Proof.
  rewrite cleanupOldResults_eq. simpl.
  apply (StronglySorted_unique (flip String.le)).
  - apply analysisKeys_sorted.
  - pose proof (analysisKeys_sorted st) as Hsorted.
    rewrite <- (take_drop 10 (analysisKeys st)) in Hsorted.
    by apply StronglySorted_app_1_l in Hsorted.
  - apply NoDup_Permutation.
    + apply NoDup_analysisKeys.
    + pose proof (NoDup_analysisKeys st) as Hnd.
      rewrite <- (take_drop 10 (analysisKeys st)) in Hnd.
      by apply NoDup_app in Hnd as (? & _).
    + intros k. rewrite <- survivors, elem_of_analysisKeys, lookup_analysis_records.
      case_decide; [naive_solver|]. split; [naive_solver|]. by intros [? ?].
Qed.

Lemma lookup_cleanup_kept st k :
  k ∈ take 10 (analysisKeys st) → (cleanupOldResults st).2 !! k = st !! k.
Proof.
  intros [_ Hk]%elem_of_take_analysisKeys. rewrite cleanupOldResults_eq. simpl.
  by apply lookup_foldr_delete_not_elem_of.
Qed.

(** The key [latestKey] finds, and when it finds none. *)
Lemma latestKey_cases st :
  match latestKey st with
  | Some k =>
      is_analysis_key k
      ∧ latestResult st = st !! k
      ∧ is_Some (st !! k)
      ∧ (∀ k', is_analysis_key k' → is_Some (st !! k') → String.le k' k)
  | None => analysis_records st = ∅ ∧ latestResult st = None
  end.
Proof.
  unfold latestResult. destruct (latestKey st) as [k|] eqn:Hlatest; simpl.
  - rewrite latestKey_head in Hlatest.
    assert (k ∈ analysisKeys st) as [Hk Hsome]%elem_of_analysisKeys.
    { destruct (analysisKeys st); [done|]. injection Hlatest as ->. apply elem_of_cons. by left. }
    split_and!; try done.
    intros k' Hk' Hsome'. apply (head_analysisKeys_greatest st); [done|].
    by apply elem_of_analysisKeys.
  - split; [|done]. apply analysisKeys_nil. rewrite latestKey_head in Hlatest.
    by destruct (analysisKeys st).
Qed.

End Latest.

(** X19: the latest result is the record with the lexically greatest
    analysis key.  [latestKey] finds no key exactly when the store holds no
    analysis record; otherwise the key it finds is an analysis key of the
    store and no analysis key of the store is greater. *)
Theorem latest_is_greatest (st : Store) :
  match latestKey st with
  | Some k =>
      is_analysis_key k
      ∧ latestResult st = st !! k
      ∧ is_Some (st !! k)
      ∧ (∀ k', is_analysis_key k' → is_Some (st !! k') → String.le k' k)
  | None => analysis_records st = ∅ ∧ latestResult st = None
  end.
Proof. apply latestKey_cases. Qed.

(** X20: eviction never hides the latest result.  On every store,
    [loadLastResult] after [cleanupOldResults] selects the same key and the
    same record as before it, and displays the same. *)
Theorem cleanup_keeps_latest `{Platform} `{PopupHost} (st : Store) :
  latestKey (cleanupOldResults st).2 = latestKey st
  ∧ latestResult (cleanupOldResults st).2 = latestResult st
  ∧ loadLastResult (cleanupOldResults st).2 = loadLastResult st.
Proof.
  assert (latestKey (cleanupOldResults st).2 = latestKey st) as Hkey.
  { rewrite !latestKey_head, analysisKeys_cleanup. by destruct (analysisKeys st). }
  assert (latestResult (cleanupOldResults st).2 = latestResult st) as Hresult.
  { unfold latestResult. rewrite Hkey.
    destruct (latestKey st) as [k|] eqn:Hlatest; [|done]. simpl.
    apply lookup_cleanup_kept. rewrite latestKey_head in Hlatest.
    destruct (analysisKeys st); [done|]. injection Hlatest as ->. simpl.
    apply elem_of_cons. by left. }
  split_and!; [done..|]. unfold loadLastResult. rewrite Hresult.
  assert (storedAnalysisKeys (cleanupOldResults st).2 = [] ↔ storedAnalysisKeys st = [])
    as Hnil.
  { rewrite !storedAnalysisKeys_nil, <- !analysisKeys_nil, analysisKeys_cleanup.
    by destruct (analysisKeys st). }
  destruct (storedAnalysisKeys (cleanupOldResults st).2) as [|k ks],
           (storedAnalysisKeys st) as [|k' ks']; try done.
  - by destruct Hnil as [Hnil _]; specialize (Hnil eq_refl).
  - by destruct Hnil as [_ Hnil]; specialize (Hnil eq_refl).
Qed.

(** X21: eviction on any store.  [cleanupOldResults] leaves the ten
    greatest analysis records, or all of them when there are ten or fewer,
    in which case the store is not changed at all; and running it a second
    time changes nothing. *)
Theorem cleanup_bounds_and_settles (st : Store) :
  let st' := (cleanupOldResults st).2 in
  size (analysis_records st') = (size (analysis_records st) `min` 10)%nat
  ∧ ((size (analysis_records st) ≤ 10)%nat → st' = st)
  ∧ cleanupOldResults st' = (Returned tt, st').
Proof.
  cbv zeta. split_and!.
  - rewrite <- !length_analysisKeys, analysisKeys_cleanup, length_take. lia.
  - rewrite <- length_analysisKeys. intros Hle.
    rewrite cleanupOldResults_eq. simpl. by rewrite drop_ge.
  - rewrite (cleanupOldResults_eq (cleanupOldResults st).2).
    rewrite analysisKeys_cleanup, drop_ge; [done|]. rewrite length_take. lia.
Qed.

(** X22: when a new result is the one the popup shows.  After a successful
    remote scan the latest key is the key just written exactly when no
    analysis key already in the store is lexically greater; otherwise the
    popup keeps showing the record of an older scan. *)
Theorem new_result_latest_iff_greatest `{Platform} (emailData : EmailData)
    (settings : Settings) (world : World) (st st' : Store) (r : AnalysisResult) :
  analyzeEmailWithOpenRouter emailData settings world st = (Returned r, st') →
  let key := analysis_key emailData (now_key world) in
  latestKey st' = Some key ↔
  (∀ k, is_analysis_key k → is_Some (st !! k) → String.le k key).
Proof.
  intros (parts & status & json & r0 & _ & _ & _ & _ & _ & ->)%remote_Returned_inv.
  cbv zeta. pose proof (analysis_key_prefix emailData (now_key world)) as Hkey.
  set (key := analysis_key emailData (now_key world)) in *.
  set (rec := stored_record _ _ _ _ _).
  assert (<[key:=rec]> st !! key = Some rec) as Hrec by apply lookup_insert_eq.
  assert (∀ k, k ≠ key → <[key:=rec]> st !! k = st !! k) as Hframe
    by (intros k Hk; by apply lookup_insert_ne).
  pose proof (latestKey_cases (<[key:=rec]> st)) as Hlatest. split.
  - intros Heq. rewrite Heq in Hlatest. destruct Hlatest as (_ & _ & _ & Hmax).
    intros k Hk Hsome. apply Hmax; [done|].
    destruct (decide (k = key)) as [->|Hne]; [by rewrite Hrec|].
    by rewrite Hframe.
  - intros Hmax. destruct (latestKey (<[key:=rec]> st)) as [k|].
    + destruct Hlatest as (Hk & _ & Hsome & Hmax'). f_equal.
      apply (anti_symm String.le).
      * destruct (decide (k = key)) as [->|Hne]; [done|].
        apply Hmax; [done|]. by rewrite <- Hframe.
      * apply Hmax'; [done|]. by rewrite Hrec.
    + destruct Hlatest as [Hempty _].
      assert (analysis_records (<[key:=rec]> st) !! key = Some rec) as Hin.
      { rewrite lookup_analysis_records. by rewrite decide_True. }
      rewrite Hempty in Hin. done.
Qed.

Lemma new_result_latest_iff_greatest_witness :
  latestKey (analyzeEmailWithOpenRouter (H:=Samples.answering_platform)
               Samples.three_keyword_mail (read_settings Samples.full_store)
               Samples.answering_world Samples.full_store).2
  = Some (analysis_key Samples.three_keyword_mail (now_key Samples.answering_world))
  ↔ (∀ k, is_analysis_key k → is_Some (Samples.full_store !! k) →
          String.le k (analysis_key Samples.three_keyword_mail
                         (now_key Samples.answering_world))).
Proof.
  apply (new_result_latest_iff_greatest (H:=Samples.answering_platform)
           Samples.three_keyword_mail (read_settings Samples.full_store)
           Samples.answering_world Samples.full_store _
           (reconcile (H:=Samples.answering_platform) (JNum 60)
              (from_option id Samples.reconciled_reply
                 (match validate Samples.reply_object with
                  | Returned r0 => Some r0
                  | Thrown _ => None
                  end)))).
  vm_compute. reflexivity.
Defined.

(** The new record of that run sorts after the timestamp keys, so it is the
    one shown; a message id that sorts before them would not be. *)
Example new_result_shown_or_not :
  latestKey (analyzeEmailWithOpenRouter (H:=Samples.answering_platform)
               Samples.three_keyword_mail (read_settings Samples.full_store)
               Samples.answering_world Samples.full_store).2
  = Some "analysis_m2"
  ∧ latestKey (analyzeEmailWithOpenRouter (H:=Samples.answering_platform)
                 MoreSamples.early_id_mail (read_settings Samples.full_store)
                 Samples.answering_world Samples.full_store).2
    = Some "analysis_1700000000014".
Proof. vm_compute. done. Qed.

(** ** The popup: display and polling *)

Section Display.
Context `{Platform} `{PopupHost}.

Lemma or_else_number c : or_else (Some (JNum c)) (JNum 0) = JNum c.
Proof. unfold or_else. simpl. by destruct (Z.eqb_spec c 0) as [->|]. Qed.

Lemma assoc_result_fields r :
  assoc "isPhishing" (result_fields r) = Some (JBool (isPhishing r))
  ∧ assoc "confidence" (result_fields r) = Some (JNum (confidence r))
  ∧ assoc "indicators" (result_fields r) = Some (JArr (indicators r))
  ∧ assoc "recommendation" (result_fields r) = Some (JStr (recommendation r)).
Proof. done. Qed.

Lemma assoc_stored_record emailData r model threshold timestamp :
  ∃ fields, stored_record emailData r model threshold timestamp = JObj fields
    ∧ assoc "isPhishing" fields = Some (JBool (isPhishing r))
    ∧ assoc "confidence" fields = Some (JNum (confidence r))
    ∧ assoc "indicators" fields = Some (JArr (indicators r))
    ∧ assoc "recommendation" fields = Some (JStr (recommendation r))
    ∧ assoc "timestamp" fields = Some (JNum timestamp).
Proof.
  eexists. split; [done|].
  destruct (assoc_result_fields r) as (Hflag & Hconf & Hind & Hrec).
  split_and!;
    (do 2 (rewrite assoc_set_field_ne by done));
    [rewrite assoc_set_field_ne by done; done..|].
  apply assoc_set_field_eq.
Qed.

(** What [displayResult] shows for a record written by the remote scanner. *)
Lemma displayResult_stored emailData r model threshold timestamp :
  displayResult (Some (stored_record emailData r model threshold timestamp)) =
  let background :=
    if 80 <=? confidence r
    then (if isPhishing r then "#ef4444" else "#10b981")
    else if 50 <=? confidence r then "#f59e0b"
    else "#6b7280" in
  let head :=
    [ ("results-section.style.display", "block");
      ("result-header.className",
       "result-header " +:+ (if isPhishing r then "danger" else "safe"));
      ("result-icon.textContent", if isPhishing r then "⚠️" else "✅");
      ("result-title.textContent",
       if isPhishing r then "Potential Phishing Detected" else "Email Appears Safe");
      ("confidence-fill.style.width", pretty (confidence r) +:+ "%");
      ("confidence-fill.style.background", background);
      ("confidence-text.textContent", pretty (confidence r) +:+ "% confidence");
      ("recommendation-text.textContent",
       if String.eqb (recommendation r) "" then "No specific recommendation"
       else recommendation r) ] in
  let stats :=
    [ ("stats-text.textContent",
       "Last scan: " +:+ toLocaleString (Some (JNum timestamp))) ] in
  match indicators r with
  | [] => (head ++ [("indicators-section.style.display", "none")] ++ stats, None)
  | _ :: _ =>
      match mapM indicator_item (indicators r) with
      | Some lis =>
          (head ++ [ ("indicators-section.style.display", "block");
                     ("indicators-list.innerHTML", join "" lis) ] ++ stats, None)
      | None => (head ++ [("indicators-section.style.display", "block")], Some TypeError)
      end
  end.
Proof.
  unfold displayResult, display_stats.
  destruct (assoc_stored_record emailData r model threshold timestamp)
    as (fields & -> & Hflag & Hconf & Hind & Hrec & Hstamp).
  cbn [get_prop get_prop_opt]. rewrite Hflag, Hconf, Hind, Hrec, Hstamp.
  rewrite or_else_number. cbn [truthy_opt truthy ToString_opt date_text converts].
  unfold value_ge, value_gt_conv, value_gt, get_length, or_else, indicators_html.
  cbn [ToNumber ToString_opt truthy converts].
  destruct (String.eqb (recommendation r) ""); cbn [negb ToString_opt];
    destruct (indicators r) as [|x i]; try done;
    cbn [length Z.of_nat Z.ltb Z.compare];
    by destruct (mapM indicator_item (x :: i)).
Qed.

Lemma displayResult_null : displayResult (Some JNull) =
  ([("results-section.style.display", "block")], Some TypeError).
Proof. done. Qed.

Lemma indicator_items_convert (items : list JSValue) :
  is_Some (mapM indicator_item items) ↔ Forall (λ i, is_Some (ToString_opt i)) items.
Proof.
  rewrite mapM_is_Some. apply Forall_proper; [|done].
  intros i. unfold indicator_item. simpl. by destruct (ToString_opt i).
Qed.

(** An indicator that is a string is shown as it is. *)
Lemma indicator_items_strings (texts : list string) :
  mapM indicator_item (JStr <$> texts) = Some ((λ t, "<li>" +:+ t +:+ "</li>") <$> texts).
Proof.
  apply mapM_Some, Forall2_fmap, Forall_Forall2_diag, Forall_forall. done.
Qed.

End Display.

(** X23: a record written by the remote scanner renders unless one of its
    indicators cannot be converted to a string.  On such a record
    [displayResult] runs to its end exactly when every indicator has a
    string conversion (an indicator that is an object with an own property
    [toString] has none, and the template literal throws on it); in every
    case it shows the danger header exactly for a flagged result, the
    confidence as a percentage, the recommendation (or the placeholder when
    it is empty), and the indicators section exactly when there is an
    indicator; when the indicators are strings, as the design document
    types them, the record renders and each one is listed as it is. *)
Theorem stored_record_renders `{Platform} `{PopupHost} (emailData : EmailData)
    (r : AnalysisResult) (model threshold : JSValue) (timestamp : Z) :
  let shown := displayResult (Some (stored_record emailData r model threshold timestamp)) in
  (shown.2 = None ↔ Forall (λ i, is_Some (ToString_opt i)) (indicators r))
  ∧ ("result-header.className",
     "result-header " +:+ (if isPhishing r then "danger" else "safe")) ∈ shown.1
  ∧ ("confidence-text.textContent", pretty (confidence r) +:+ "% confidence") ∈ shown.1
  ∧ ("recommendation-text.textContent",
     if String.eqb (recommendation r) "" then "No specific recommendation"
     else recommendation r) ∈ shown.1
  ∧ (("indicators-section.style.display", "block") ∈ shown.1 ↔ indicators r ≠ [])
  ∧ (∀ text texts, indicators r = JStr <$> (text :: texts) →
       shown.2 = None
       ∧ ("indicators-list.innerHTML",
          join "" ((λ t, "<li>" +:+ t +:+ "</li>") <$> (text :: texts))) ∈ shown.1).
Proof.
  cbv zeta. rewrite displayResult_stored. cbv zeta.
  rewrite <- indicator_items_convert.
  split_and!.
  - destruct (indicators r) as [|x i]; [by split; eauto|].
    destruct (mapM indicator_item (x :: i)); cbn [snd]; split; try done; eauto.
  - destruct (indicators r); [|destruct (mapM _ _)]; cbn [fst]; set_solver.
  - destruct (indicators r); [|destruct (mapM _ _)]; cbn [fst]; set_solver.
  - destruct (indicators r); [|destruct (mapM _ _)]; cbn [fst]; set_solver.
  - destruct (indicators r) as [|x i]; [|destruct (mapM _ _)]; cbn [fst];
      rewrite !elem_of_app, ?elem_of_cons, ?elem_of_nil;
      (split; [|naive_solver]); try done.
    intros Hin. exfalso. decompose [or] Hin; congruence.
  - intros text texts ->. rewrite indicator_items_strings. cbn [fmap list_fmap fst snd].
    split; [done|]. set_solver.
Qed.

(** X24: a remote result with indicators is never shown as safe.  For a
    reconciled result that has indicators, the record stored for it is
    displayed with the danger header, a confidence bar in amber or red
    (never grey, never green) and the indicators section.  [displayResult]
    then fills the list and runs to its end exactly when every indicator
    has a string conversion; otherwise it stops with a TypeError and the
    list is not filled. *)
Theorem reconciled_indicators_display `{Platform} `{PopupHost} (emailData : EmailData)
    (r0 : AnalysisResult) (model threshold : JSValue) (timestamp : Z) :
  indicators r0 ≠ [] →
  let r := reconcile threshold r0 in
  let shown := displayResult (Some (stored_record emailData r model threshold timestamp)) in
  ("result-header.className", "result-header danger") ∈ shown.1
  ∧ (("confidence-fill.style.background", "#f59e0b") ∈ shown.1
     ∨ ("confidence-fill.style.background", "#ef4444") ∈ shown.1)
  ∧ ("indicators-section.style.display", "block") ∈ shown.1
  ∧ (shown.2 = None ↔ Forall (λ i, is_Some (ToString_opt i)) (indicators r0))
  ∧ (shown.2 ≠ None →
     shown.2 = Some TypeError ∧ ∀ html, ("indicators-list.innerHTML", html) ∉ shown.1).
Proof.
  intros Hind. cbv zeta. rewrite displayResult_stored. cbv zeta.
  destruct (reconcile_enforces_indicators threshold r0 Hind) as [Hflag Hconf].
  rewrite Hflag, indicators_reconcile.
  assert ((50 <=? confidence (reconcile threshold r0)) = true) as -> by by apply Z.leb_le.
  rewrite <- indicator_items_convert.
  destruct (indicators r0) as [|x i] eqn:Hi; [done|].
  destruct (mapM indicator_item (x :: i)) as [lis|]; cbn [fst snd].
  - split_and!; [set_solver| |set_solver|by split; eauto|done].
    destruct (80 <=? _); [right|left]; set_solver.
  - split_and!; [set_solver| |set_solver|split; [done|by intros [??]]|].
    + destruct (80 <=? _); [right|left]; set_solver.
    + intros _. split; [done|]. intros html Hin.
      rewrite !elem_of_app, !elem_of_cons, !elem_of_nil in Hin.
      decompose [or] Hin; congruence.
Qed.

Lemma reconciled_indicators_display_witness :
  let shown := displayResult (H:=Samples.platform) (H0:=TestHost.host)
                 (Some (stored_record Samples.three_keyword_mail
                          (reconcile (H:=Samples.platform) (JNum 70) MoreSamples.raw_reply)
                          DEFAULT_MODEL (JNum 70) 1700000000001)) in
  ("result-header.className", "result-header danger") ∈ shown.1
  ∧ (("confidence-fill.style.background", "#f59e0b") ∈ shown.1
     ∨ ("confidence-fill.style.background", "#ef4444") ∈ shown.1)
  ∧ ("indicators-section.style.display", "block") ∈ shown.1
  ∧ shown.2 = None.
Proof.
  destruct (reconciled_indicators_display (H:=Samples.platform) (H0:=TestHost.host)
              Samples.three_keyword_mail MoreSamples.raw_reply DEFAULT_MODEL (JNum 70)
              1700000000001) as (Hheader & Hbar & Hsection & Hruns & _);
    [discriminate|].
  split_and!; [done..|]. apply Hruns. repeat constructor. by eexists.
Defined.

(** An indicator that is an object with an own property [toString] stops
    [displayResult] after it has shown the indicators section. *)
Example unconvertible_indicator_stops_display :
  let shown := displayResult (H:=Samples.platform) (H0:=TestHost.host)
                 (Some (stored_record Samples.three_keyword_mail
                          MoreSamples.odd_indicator_reply
                          DEFAULT_MODEL (JNum 70) 1700000000001)) in
  shown.2 = Some TypeError
  ∧ last shown.1 = Some ("indicators-section.style.display", "block").
Proof. vm_compute. done. Qed.

Section Polling.
Context `{Platform} `{PopupHost}.

Lemma poll_ticks_S snapshot fuel attempts written :
  poll_ticks snapshot attempts (S fuel) written =
  if (0 <? length (storedAnalysisKeys (snapshot (S attempts))))%nat
  then
    match displayResult (latestResult (snapshot (S attempts))) with
    | (writes, None) =>
        PollShown (S attempts)
          (written ++ writes ++ showStatus "scan-status" "Analysis complete!" "success")
    | (writes, Some _) => poll_ticks snapshot (S attempts) fuel (written ++ writes)
    end
  else if (maxAttempts <=? S attempts)%nat
  then PollTimedOut (S attempts)
         (written ++ showStatus "scan-status"
                       "Analysis timed out. Please try again." "error")
  else poll_ticks snapshot (S attempts) fuel written.
Proof. done. Qed.

Lemma poll_ticks_ends snapshot fuel attempts written :
  (30 ≤ attempts + fuel)%nat →
  (attempts < 30)%nat →
  (∀ m, (1 ≤ m ≤ attempts)%nat → storedAnalysisKeys (snapshot m) = []) →
  (∀ n, (1 ≤ n ≤ 30)%nat → storedAnalysisKeys (snapshot n) ≠ [] →
        (displayResult (latestResult (snapshot n))).2 = None) →
  match poll_ticks snapshot attempts fuel written with
  | PollShown n _ =>
      (1 ≤ n ≤ 30)%nat
      ∧ storedAnalysisKeys (snapshot n) ≠ []
      ∧ (∀ m, (1 ≤ m < n)%nat → storedAnalysisKeys (snapshot m) = [])
  | PollTimedOut n _ =>
      n = 30%nat ∧ (∀ m, (1 ≤ m ≤ 30)%nat → storedAnalysisKeys (snapshot m) = [])
  | PollRunning _ _ => False
  end.
Proof.
  revert attempts written.
  induction fuel as [|fuel IH]; intros attempts written Hfuel Hlt Hempty Hrenders.
  { lia. }
  rewrite poll_ticks_S.
  destruct (storedAnalysisKeys (snapshot (S attempts))) as [|k ks] eqn:Hkeys.
  - cbn [length Nat.ltb Nat.leb]. unfold maxAttempts.
    destruct (Nat.leb_spec 30 (S attempts)).
    + split; [lia|]. intros m Hm.
      destruct (decide (m = S attempts)) as [->|]; [done|]. apply Hempty. lia.
    + apply IH; [lia..| |done]. intros m Hm.
      destruct (decide (m = S attempts)) as [->|]; [done|]. apply Hempty. lia.
  - cbn [length Nat.ltb Nat.leb].
    assert ((displayResult (latestResult (snapshot (S attempts)))).2 = None) as Hshown.
    { apply Hrenders; [lia|]. by rewrite ?Hkeys. }
    destruct (displayResult _) as [writes [e|]]; [done|].
    split; [lia|]. split; [by rewrite ?Hkeys|]. intros m Hm. apply Hempty. lia.
Qed.

Lemma poll_ticks_stuck snapshot fuel attempts written :
  (∀ n, storedAnalysisKeys (snapshot n) ≠ []
        ∧ (displayResult (latestResult (snapshot n))).2 ≠ None) →
  ∃ writes, poll_ticks snapshot attempts fuel written
            = PollRunning (attempts + fuel) writes.
Proof.
  intros Hbad. revert attempts written.
  induction fuel as [|fuel IH]; intros attempts written.
  { simpl. rewrite Nat.add_0_r. eauto. }
  rewrite poll_ticks_S.
  destruct (Hbad (S attempts)) as [Hkeys Hthrows].
  destruct (storedAnalysisKeys (snapshot (S attempts))); [done|].
  cbn [length Nat.ltb Nat.leb].
  destruct (displayResult _) as [writes [e|]]; [|done].
  destruct (IH (S attempts) (written ++ writes)) as [w ->].
  exists w. f_equal. lia.
Qed.

End Polling.

(** X25: polling ends within thirty attempts.  Provided every record it
    would display renders, [pollForResult] stops at the first tick at which
    the store holds an analysis record and shows the latest one, or, when
    none of the first thirty ticks finds a record, reports the timeout at
    the thirtieth. *)
Theorem poll_ends_within_thirty `{Platform} `{PopupHost}
    (snapshot : nat → Store) (fuel : nat) :
  (30 ≤ fuel)%nat →
  (∀ n, (1 ≤ n ≤ 30)%nat → storedAnalysisKeys (snapshot n) ≠ [] →
        (displayResult (latestResult (snapshot n))).2 = None) →
  match pollForResult snapshot fuel with
  | PollShown n _ =>
      (1 ≤ n ≤ 30)%nat
      ∧ storedAnalysisKeys (snapshot n) ≠ []
      ∧ (∀ m, (1 ≤ m < n)%nat → storedAnalysisKeys (snapshot m) = [])
  | PollTimedOut n _ =>
      n = 30%nat ∧ (∀ m, (1 ≤ m ≤ 30)%nat → storedAnalysisKeys (snapshot m) = [])
  | PollRunning _ _ => False
  end.
Proof.
  intros Hfuel Hrenders. apply poll_ticks_ends; [lia|lia| |done].
  intros m Hm. lia.
Qed.

Lemma poll_ends_within_thirty_witness :
  match pollForResult (H:=Samples.platform) (H0:=TestHost.host)
          MoreSamples.late_snapshot 40 with
  | PollShown n _ =>
      (1 ≤ n ≤ 30)%nat
      ∧ storedAnalysisKeys (MoreSamples.late_snapshot n) ≠ []
      ∧ (∀ m, (1 ≤ m < n)%nat → storedAnalysisKeys (MoreSamples.late_snapshot m) = [])
  | PollTimedOut n _ =>
      n = 30%nat
      ∧ (∀ m, (1 ≤ m ≤ 30)%nat → storedAnalysisKeys (MoreSamples.late_snapshot m) = [])
  | PollRunning _ _ => False
  end.
Proof.
  apply (poll_ends_within_thirty (H:=Samples.platform) (H0:=TestHost.host)
           MoreSamples.late_snapshot 40); [lia|].
  intros n _. unfold MoreSamples.late_snapshot.
  destruct (n <? 3)%nat; intros Hkeys; [|vm_compute; reflexivity].
  exfalso. apply Hkeys. vm_compute. reflexivity.
Defined.

(** X26: a record that does not render keeps the poll running.  When the
    store holds an analysis record at every tick and [displayResult] throws
    on the latest one, the callback never reaches [clearInterval]: after any
    number of ticks, thirty or more, the poll is still running and has
    reported neither a result nor a timeout. *)
Theorem poll_never_ends_on_bad_record `{Platform} `{PopupHost}
    (snapshot : nat → Store) (fuel : nat) :
  (∀ n, storedAnalysisKeys (snapshot n) ≠ []
        ∧ (displayResult (latestResult (snapshot n))).2 ≠ None) →
  ∃ writes, pollForResult snapshot fuel = PollRunning fuel writes.
Proof. intros Hbad. by apply (poll_ticks_stuck snapshot fuel 0 []). Qed.

Lemma poll_never_ends_on_bad_record_witness :
  ∃ writes, pollForResult (H:=Samples.platform) (H0:=TestHost.host)
              (λ _, MoreSamples.null_record_store) 100
            = PollRunning 100 writes.
Proof.
  apply (poll_never_ends_on_bad_record (H:=Samples.platform) (H0:=TestHost.host)
           (λ _, MoreSamples.null_record_store) 100).
  intros _. split; vm_compute; discriminate.
Defined.

(** ** The local scanner on an arbitrary payload *)

(** Where the conversion to a string does not throw, it yields the string
    of [ToString]. *)
Lemma ToString_opt_Some (v : JSValue) (s : string) :
  ToString_opt v = Some s → ToString v = s.
Proof.
  revert s. induction v as [| [|] | n | s' | items IH | fields] using JSValue_items_ind;
    intros s; simpl; try congruence.
  - intros Hs. destruct (_ items) as [texts|] eqn:Heach in Hs; [|done].
    injection Hs as <-. f_equal. revert texts Heach.
    induction IH as [|x items Hx _ IHitems]; intros texts Heach.
    + by injection Heach as <-.
    + destruct (match x with JNull => Some "" | _ => ToString_opt x end)
        as [t|] eqn:Ht in Heach; [|done].
      destruct (_ items) as [ts|] eqn:Hrest in Heach; [|done].
      injection Heach as <-. simpl. f_equal; [|by apply IHitems].
      destruct x; try (by injection Ht as <-); by apply Hx.
  - destruct (assoc "toString" fields); congruence.
Qed.

Section ArbitraryPayload.
Context `{Platform}.

Lemma assoc_remove_field_eq name fields :
  assoc name (remove_field name fields) = None.
Proof.
  unfold remove_field. induction fields as [|[k v] fields IH]; [done|].
  rewrite filter_cons. simpl. destruct (decide (k ≠ name)) as [Hne|]; [|done].
  simpl. by destruct (String.eqb_spec k name).
Qed.

Lemma assoc_remove_field_ne name name' fields :
  name ≠ name' →
  assoc name' (remove_field name fields) = assoc name' fields.
Proof.
  intros Hne. unfold remove_field. induction fields as [|[k v] fields IH]; [done|].
  rewrite filter_cons. simpl. destruct (decide (k ≠ name)) as [Hk|Hk]; simpl.
  - by rewrite IH.
  - apply dec_stable in Hk as ->. by destruct (String.eqb_spec name name').
Qed.

Lemma assoc_payload emailData :
  ∃ fields, payload emailData = JObj fields
    ∧ assoc "body" fields = JStr <$> body emailData
    ∧ assoc "subject" fields = JStr <$> subject emailData
    ∧ assoc "links" fields = (λ ls, JArr (JStr <$> ls)) <$> links emailData.
Proof.
  eexists. split; [done|].
  by destruct emailData as [[f|] [s|] [b|] [ls|] [id|]].
Qed.

Lemma existsb_link_values body subject (ls : list string) :
  existsb (link_value_mismatch body subject) (JStr <$> ls)
  = existsb (link_mismatch body subject) ls.
Proof.
  induction ls as [|l ls IH]; [done|].
  rewrite fmap_cons. cbn [existsb]. by rewrite IH.
Qed.

Lemma links_value_step_typed body subject (ls : option (list string)) acc :
  links_value_step body subject ((λ ls, JArr (JStr <$> ls)) <$> ls) acc
  = Returned (links_step body subject ls acc).
Proof.
  destruct ls as [[|l ls]|]; [done| |done].
  unfold links_value_step, links_step. cbn [fmap option_fmap option_map truthy].
  unfold value_gt_conv, get_length. cbn [converts ToString_opt].
  unfold value_gt. cbn [ToNumber mbind Outcome_bind].
  change (list_fmap string JSValue JStr (l :: ls)) with (JStr <$> l :: ls).
  assert ((0 <? Z.of_nat (length (JStr <$> l :: ls))) = true) as ->.
  { apply Z.ltb_lt. rewrite length_fmap. simpl. lia. }
  by rewrite existsb_link_values.
Qed.

(** On the payload of a typed e-mail the scanner is [runLocalBasicScan] as
    modelled on [EmailData]. *)
Lemma runLocalBasicScan_value_payload emailData isFallback :
  runLocalBasicScan_value (payload emailData) isFallback
  = runLocalBasicScan emailData isFallback.
Proof.
  destruct (assoc_payload emailData) as (fields & -> & Hb & Hs & Hl).
  unfold runLocalBasicScan_value, runLocalBasicScan. cbn [get_prop mbind Outcome_bind].
  rewrite Hb, Hs, Hl.
  destruct (body emailData) as [b|]; [|done].
  destruct (subject emailData) as [s|]; [|done].
  cbn [fmap option_fmap option_map lower_value lower_field mbind Outcome_bind].
  by rewrite links_value_step_typed.
Qed.

Lemma links_value_step_array body subject items acc :
  ∃ acc', links_value_step body subject (Some (JArr items)) acc = Returned acc'.
Proof.
  unfold links_value_step. cbn [truthy]. unfold value_gt_conv, get_length.
  cbn [converts ToString_opt mbind Outcome_bind].
  destruct (value_gt _ _); eauto.
Qed.

Lemma links_value_step_empty body subject acc :
  links_value_step body subject (Some (JArr [])) acc = Returned acc.
Proof. done. Qed.

Lemma runLocalBasicScan_value_Returned fields isFallback b s acc :
  assoc "body" fields = Some (JStr b) →
  assoc "subject" fields = Some (JStr s) →
  links_value_step (toLowerCase b) (toLowerCase s) (assoc "links" fields)
    (keyword_acc (toLowerCase b) (toLowerCase s)) = Returned acc →
  ∃ r, runLocalBasicScan_value (JObj fields) isFallback = Returned r.
Proof.
  intros Hb Hs Hl. unfold runLocalBasicScan_value. cbn [get_prop mbind Outcome_bind].
  rewrite Hb. cbn [lower_value mbind Outcome_bind].
  rewrite Hs. cbn [lower_value mbind Outcome_bind].
  unfold keyword_acc in Hl. rewrite Hl. cbn [mbind Outcome_bind]. eauto.
Qed.

(** The scanner raises nothing but a TypeError, and only for a body or a
    subject that is not a string or for links that are not an array. *)
Lemma runLocalBasicScan_value_Thrown fields isFallback e :
  runLocalBasicScan_value (JObj fields) isFallback = Thrown e →
  e = TypeError
  ∧ ((∀ b, assoc "body" fields ≠ Some (JStr b))
     ∨ (∀ s, assoc "subject" fields ≠ Some (JStr s))
     ∨ ∃ l, assoc "links" fields = Some l ∧ ∀ items, l ≠ JArr items).
Proof.
  unfold runLocalBasicScan_value. cbn [get_prop mbind Outcome_bind].
  destruct (assoc "body" fields) as [[| | |b| |]|]; cbn [lower_value mbind Outcome_bind];
    try (intros [= <-]; split; [done|left; congruence]).
  destruct (assoc "subject" fields) as [[| | |s| |]|]; cbn [lower_value mbind Outcome_bind];
    try (intros [= <-]; split; [done|right; left; congruence]).
  destruct (links_value_step _ _ _ _) as [acc|e'] eqn:Hl; cbn [mbind Outcome_bind];
    [done|].
  intros [= ->]. unfold links_value_step in Hl.
  destruct (assoc "links" fields) as [l|]; [|done].
  destruct (truthy l); [|done].
  unfold value_gt_conv in Hl.
  destruct (get_length l) as [n|] eqn:Hn; cbn [mbind Outcome_bind] in Hl; [|done].
  destruct (converts n) eqn:Hc; cbn [mbind Outcome_bind] in Hl.
  - destruct (value_gt _ _); [|done].
    destruct l; try (injection Hl as <-; split; [done|right; right; eexists; split; done]).
    done.
  - injection Hl as <-. split; [done|]. right. right. eexists. split; [done|].
    intros items ->. simpl in Hn. injection Hn as <-. done.
Qed.
End ArbitraryPayload.

(** C2, amended: on every input object whose body and subject are strings
    and whose links field is absent or an array, the local heuristic scanner
    returns a result, and an absent links field is treated as an empty list
    of links: the object without the field and the object with the empty
    array in it get the same result. *)
Theorem local_scan_returns_on_typed_fields `{Platform}
    (fields : list (string * JSValue)) (isFallback : bool) (b s : string) :
  assoc "body" fields = Some (JStr b) →
  assoc "subject" fields = Some (JStr s) →
  (assoc "links" fields = None ∨ ∃ items, assoc "links" fields = Some (JArr items)) →
  (∃ r, runLocalBasicScan_value (JObj fields) isFallback = Returned r)
  ∧ runLocalBasicScan_value (JObj (remove_field "links" fields)) isFallback
    = runLocalBasicScan_value (JObj (set_field "links" (JArr []) fields)) isFallback.
Proof.
  intros Hb Hs Hl. split.
  - destruct Hl as [Hl|[items Hl]].
    + eapply (runLocalBasicScan_value_Returned fields isFallback b s _ Hb Hs).
      rewrite Hl. reflexivity.
    + destruct (links_value_step_array (toLowerCase b) (toLowerCase s) items
                  (keyword_acc (toLowerCase b) (toLowerCase s))) as [acc Hacc].
      eapply (runLocalBasicScan_value_Returned fields isFallback b s _ Hb Hs).
      rewrite Hl. exact Hacc.
  - unfold runLocalBasicScan_value. cbn [get_prop mbind Outcome_bind].
    rewrite (assoc_remove_field_ne "links" "body"), (assoc_set_field_ne "links" "body"),
      (assoc_remove_field_ne "links" "subject"), (assoc_set_field_ne "links" "subject")
      by done.
    rewrite assoc_remove_field_eq, assoc_set_field_eq.
    rewrite Hb. cbn [lower_value mbind Outcome_bind].
    rewrite Hs. done.
Qed.

Lemma local_scan_returns_on_typed_fields_witness :
  (∃ r, runLocalBasicScan_value (H:=Samples.platform)
          (JObj MoreSamples.fields_without_links) true = Returned r)
  ∧ runLocalBasicScan_value (H:=Samples.platform)
      (JObj (remove_field "links" MoreSamples.fields_without_links)) true
    = runLocalBasicScan_value (H:=Samples.platform)
        (JObj (set_field "links" (JArr []) MoreSamples.fields_without_links)) true.
Proof.
  apply (local_scan_returns_on_typed_fields (H:=Samples.platform)
           MoreSamples.fields_without_links true "please read" "urgent");
    [reflexivity..|left; reflexivity].
Defined.

(** The inputs on which the scanner raises although body and subject are
    present: a body that is not a string, and links that are a string. *)
Example mistyped_fields_raise :
  runLocalBasicScan_value (H:=Samples.platform) MoreSamples.numeric_body_payload false
  = Thrown TypeError
  ∧ runLocalBasicScan_value (H:=Samples.platform) MoreSamples.text_links_payload false
    = Thrown TypeError.
Proof. done. Qed.

(** Links of any other kind are passed over or checked one by one: a
    number has no length, and an element that is not a string is converted
    or counted as unparseable. *)
Example other_links_do_not_raise :
  (∃ r, runLocalBasicScan_value (H:=Samples.platform)
          MoreSamples.numeric_links_payload false = Returned r
        ∧ confidence r = 15)
  ∧ (∃ r, runLocalBasicScan_value (H:=Samples.platform)
            MoreSamples.odd_links_payload false = Returned r
          ∧ confidence r = 55).
Proof. split; eexists; split; vm_compute; reflexivity. Qed.
